(** * AcadBoost: the data-access and authorization layer

    A shallow embedding of [utils/database.py], [utils/auth.py] and the
    department repository of [pages/admin/department_management.py].

    Every repository function of the source follows one pattern: load a
    whole JSON document, change the in-memory value, write the whole
    document back, return a status.  Here a function takes the contents
    of the data directory ([Disk]) and returns the Python return value
    together with the contents of the data directory after the call. *)

From stdpp Require Import base option list strings pretty gmap fin_maps.

Open Scope string_scope.
Open Scope list_scope.
Open Scope nat_scope.

(** ** Python return values

    The repository functions return values of four shapes. *)

Inductive result :=
  | RBool (ok : bool)                                (* return True / return False *)
  | RId (id : string)                                (* return exam_id *)
  | RMsg (ok : bool) (msg : string)                  (* return ok, "message" *)
  | RMsgId (ok : bool) (msg : string) (id : string). (* return True, "message", id *)

(** The uniform shape of the specification: a success flag with a
    message, optionally followed by a generated id. *)
Definition uniform_shape (r : result) : bool :=
  match r with
  | RMsg _ _ | RMsgId _ _ _ => true
  | RBool _ | RId _ => false
  end.

(** A call reports failure when it returns [False] or [(False, message)]. *)
Definition reports_failure (r : result) : bool :=
  match r with
  | RBool ok | RMsg ok _ | RMsgId ok _ _ => negb ok
  | RId _ => false
  end.

(** ** The clock

    [datetime.now()] rendered the three ways the source renders it. *)

Record Clock := {
  isoformat : string;      (* datetime.now().isoformat() *)
  strftime_id : string;    (* datetime.now().strftime('%Y%m%d%H%M%S') *)
  strftime_human : string  (* datetime.now().strftime("%Y-%m-%d %H:%M:%S") *)
}.

(** ** Python truthiness of optional arguments *)

Definition truthy_str (o : option string) : bool :=
  match o with
  | Some s => negb (String.eqb s "")
  | None => false
  end.

Definition truthy_int (o : option Z) : bool :=
  match o with
  | Some n => negb (Z.eqb n 0)
  | None => false
  end.

Definition truthy_list {A} (o : option (list A)) : bool :=
  match o with
  | Some (_ :: _) => true
  | _ => false
  end.

(** ** The entities, with the keys their constructors write *)

Record User := {
  u_password : string;             (* the stored digest *)
  u_role : string;
  u_created_at : string;
  u_name : option string;
  u_department : option string;
  u_student_id : option string;
  u_year : option Z;
  u_semester : option Z;
  u_section : option string
}.

Record Course := {
  c_course_name : string;
  c_department : option string;    (* read with course.get("department") *)
  c_teacher_email : string;
  c_description : string;
  c_credits : Z;
  c_created_at : string
}.

Record Department := {
  d_name : string;
  d_hod_email : string;
  d_description : string;
  d_created_at : string
}.

Record Mark := {
  m_status : string;
  m_marked_at : string
}.

Record Assignment := {
  a_assignment_id : string;
  a_title : string;
  a_description : string;
  a_due_date : string;
  a_max_points : Z;
  a_created_at : string
}.

Record Project := {
  p_project_id : string;
  p_title : string;
  p_description : string;
  p_due_date : string;
  p_max_points : Z;
  p_group_project : bool;
  p_created_at : string
}.

Record Submission := {
  s_student_email : string;
  s_submission_text : string;
  s_file_path : option string;
  s_group_members : option (option (list string)); (* key absent / null / list *)
  s_submitted_at : string;
  s_grade : option Z;
  s_feedback : option string;
  s_graded_at : option string      (* key written by grade_submission *)
}.

Record Certificate := {
  ce_certificate_id : string;
  ce_title : string;
  ce_issuing_organization : string;
  ce_issue_date : string;
  ce_file_path : option string;
  ce_submitted_at : string;
  ce_verified : bool;
  ce_verified_at : option string   (* key written by verify_certificate *)
}.

Record Announcement := {
  an_announcement_id : nat;
  an_title : string;
  an_content : string;
  an_author_email : string;
  an_target_roles : option (list string);
  an_target_departments : option (list string);
  an_target_emails : option (list string);
  an_created_at : string
}.

Record Exam := {
  e_exam_id : string;
  e_exam_name : string;
  e_exam_type : string;
  e_semester : Z;
  e_date : string;
  e_max_marks : Z;
  e_created_at : string
}.

Record Subject := {
  sj_subject_id : string;
  sj_subject_name : string;
  sj_semester : Z;
  sj_department : option string
}.

Record ExamResult := {
  r_marks : Z;
  r_remarks : option string;
  r_updated_at : string
}.

(** ** JSON values

    Used where the source reads a document without knowing its shape
    ([get_student_certificates]). *)

#[local] Set Warnings "-register-all".

Inductive json :=
  | JNull
  | JBool (b : bool)
  | JNum (n : Z)
  | JStr (s : string)
  | JArr (items : list json)
  | JObj (members : list (string * json)).

(** ** The data directory

    One field per document.  [utils/database.py] runs [init_data_files()]
    and [utils/auth.py] runs [init_users()] when the module is imported,
    so the eleven documents they name exist whenever one of their
    functions runs.  Two files are created on first access only and may
    be absent: [departments.json], and the file that the relative path
    ["certificates.json"] of [get_student_certificates] names. *)

Record Disk := {
  users_json : gmap string User;
  courses_json : gmap string Course;
  attendance_json : gmap string (gmap string (gmap string Mark));
  assignments_json : gmap string (list Assignment);
  submissions_json : gmap string (list Submission);
  projects_json : gmap string (list Project);
  certificates_json : gmap string (list Certificate);
  announcements_json : list Announcement;
  exams_json : gmap string Exam;
  subjects_json : gmap string Subject;
  exam_results_json : gmap string (gmap string (gmap string ExamResult));
  departments_json : option (gmap string Department);
  cwd_certificates_json : option json
}.

(** [save_data(FILE, data)] and its siblings: one setter per document. *)

Definition save_users (v : gmap string User) (d : Disk) : Disk :=
  {| users_json := v; courses_json := courses_json d;
     attendance_json := attendance_json d; assignments_json := assignments_json d;
     submissions_json := submissions_json d; projects_json := projects_json d;
     certificates_json := certificates_json d; announcements_json := announcements_json d;
     exams_json := exams_json d; subjects_json := subjects_json d;
     exam_results_json := exam_results_json d; departments_json := departments_json d;
     cwd_certificates_json := cwd_certificates_json d |}.

Definition save_courses (v : gmap string Course) (d : Disk) : Disk :=
  {| users_json := users_json d; courses_json := v;
     attendance_json := attendance_json d; assignments_json := assignments_json d;
     submissions_json := submissions_json d; projects_json := projects_json d;
     certificates_json := certificates_json d; announcements_json := announcements_json d;
     exams_json := exams_json d; subjects_json := subjects_json d;
     exam_results_json := exam_results_json d; departments_json := departments_json d;
     cwd_certificates_json := cwd_certificates_json d |}.

Definition save_attendance (v : gmap string (gmap string (gmap string Mark)))
    (d : Disk) : Disk :=
  {| users_json := users_json d; courses_json := courses_json d;
     attendance_json := v; assignments_json := assignments_json d;
     submissions_json := submissions_json d; projects_json := projects_json d;
     certificates_json := certificates_json d; announcements_json := announcements_json d;
     exams_json := exams_json d; subjects_json := subjects_json d;
     exam_results_json := exam_results_json d; departments_json := departments_json d;
     cwd_certificates_json := cwd_certificates_json d |}.

Definition save_assignments (v : gmap string (list Assignment)) (d : Disk) : Disk :=
  {| users_json := users_json d; courses_json := courses_json d;
     attendance_json := attendance_json d; assignments_json := v;
     submissions_json := submissions_json d; projects_json := projects_json d;
     certificates_json := certificates_json d; announcements_json := announcements_json d;
     exams_json := exams_json d; subjects_json := subjects_json d;
     exam_results_json := exam_results_json d; departments_json := departments_json d;
     cwd_certificates_json := cwd_certificates_json d |}.

Definition save_submissions (v : gmap string (list Submission)) (d : Disk) : Disk :=
  {| users_json := users_json d; courses_json := courses_json d;
     attendance_json := attendance_json d; assignments_json := assignments_json d;
     submissions_json := v; projects_json := projects_json d;
     certificates_json := certificates_json d; announcements_json := announcements_json d;
     exams_json := exams_json d; subjects_json := subjects_json d;
     exam_results_json := exam_results_json d; departments_json := departments_json d;
     cwd_certificates_json := cwd_certificates_json d |}.

Definition save_projects (v : gmap string (list Project)) (d : Disk) : Disk :=
  {| users_json := users_json d; courses_json := courses_json d;
     attendance_json := attendance_json d; assignments_json := assignments_json d;
     submissions_json := submissions_json d; projects_json := v;
     certificates_json := certificates_json d; announcements_json := announcements_json d;
     exams_json := exams_json d; subjects_json := subjects_json d;
     exam_results_json := exam_results_json d; departments_json := departments_json d;
     cwd_certificates_json := cwd_certificates_json d |}.

Definition save_certificates (v : gmap string (list Certificate)) (d : Disk) : Disk :=
  {| users_json := users_json d; courses_json := courses_json d;
     attendance_json := attendance_json d; assignments_json := assignments_json d;
     submissions_json := submissions_json d; projects_json := projects_json d;
     certificates_json := v; announcements_json := announcements_json d;
     exams_json := exams_json d; subjects_json := subjects_json d;
     exam_results_json := exam_results_json d; departments_json := departments_json d;
     cwd_certificates_json := cwd_certificates_json d |}.

Definition save_announcements (v : list Announcement) (d : Disk) : Disk :=
  {| users_json := users_json d; courses_json := courses_json d;
     attendance_json := attendance_json d; assignments_json := assignments_json d;
     submissions_json := submissions_json d; projects_json := projects_json d;
     certificates_json := certificates_json d; announcements_json := v;
     exams_json := exams_json d; subjects_json := subjects_json d;
     exam_results_json := exam_results_json d; departments_json := departments_json d;
     cwd_certificates_json := cwd_certificates_json d |}.

Definition save_exams (v : gmap string Exam) (d : Disk) : Disk :=
  {| users_json := users_json d; courses_json := courses_json d;
     attendance_json := attendance_json d; assignments_json := assignments_json d;
     submissions_json := submissions_json d; projects_json := projects_json d;
     certificates_json := certificates_json d; announcements_json := announcements_json d;
     exams_json := v; subjects_json := subjects_json d;
     exam_results_json := exam_results_json d; departments_json := departments_json d;
     cwd_certificates_json := cwd_certificates_json d |}.

Definition save_subjects (v : gmap string Subject) (d : Disk) : Disk :=
  {| users_json := users_json d; courses_json := courses_json d;
     attendance_json := attendance_json d; assignments_json := assignments_json d;
     submissions_json := submissions_json d; projects_json := projects_json d;
     certificates_json := certificates_json d; announcements_json := announcements_json d;
     exams_json := exams_json d; subjects_json := v;
     exam_results_json := exam_results_json d; departments_json := departments_json d;
     cwd_certificates_json := cwd_certificates_json d |}.

Definition save_exam_results (v : gmap string (gmap string (gmap string ExamResult)))
    (d : Disk) : Disk :=
  {| users_json := users_json d; courses_json := courses_json d;
     attendance_json := attendance_json d; assignments_json := assignments_json d;
     submissions_json := submissions_json d; projects_json := projects_json d;
     certificates_json := certificates_json d; announcements_json := announcements_json d;
     exams_json := exams_json d; subjects_json := subjects_json d;
     exam_results_json := v; departments_json := departments_json d;
     cwd_certificates_json := cwd_certificates_json d |}.

Definition write_departments (v : option (gmap string Department)) (d : Disk) : Disk :=
  {| users_json := users_json d; courses_json := courses_json d;
     attendance_json := attendance_json d; assignments_json := assignments_json d;
     submissions_json := submissions_json d; projects_json := projects_json d;
     certificates_json := certificates_json d; announcements_json := announcements_json d;
     exams_json := exams_json d; subjects_json := subjects_json d;
     exam_results_json := exam_results_json d; departments_json := v;
     cwd_certificates_json := cwd_certificates_json d |}.

Definition write_cwd_certificates (v : option json) (d : Disk) : Disk :=
  {| users_json := users_json d; courses_json := courses_json d;
     attendance_json := attendance_json d; assignments_json := assignments_json d;
     submissions_json := submissions_json d; projects_json := projects_json d;
     certificates_json := certificates_json d; announcements_json := announcements_json d;
     exams_json := exams_json d; subjects_json := subjects_json d;
     exam_results_json := exam_results_json d; departments_json := departments_json d;
     cwd_certificates_json := v |}.

(** ** Identity and access ([utils/auth.py])

    [hashlib.sha256] is a collaborator of the source; the development
    is parametric in the digest function. *)

(** The keyword arguments of [create_user], as the callers pass them. *)
Record UserFields := {
  uf_name : option string;
  uf_department : option string;
  uf_student_id : option string;
  uf_year : option Z;
  uf_semester : option Z;
  uf_section : option string
}.

(** The keyword arguments of [update_user]; [None] is an absent key. *)
Record UserPatch := {
  up_password : option string;
  up_role : option string;
  up_fields : UserFields
}.

(** [dict.update] on an optional key: a supplied value replaces the
    stored one. *)
Definition updated {A} (new old : option A) : option A :=
  match new with
  | Some v => Some v
  | None => old
  end.

Section auth.
Variable hash_password : string -> string.

Definition get_users (d : Disk) : gmap string User := users_json d.

Definition authenticate (email password : string) (d : Disk) : option User :=
  let users := get_users d in
  match users !! email with
  | Some u =>
      if String.eqb (u_password u) (hash_password password) then Some u else None
  | None => None
  end.

Definition create_user (now : Clock) (email password role : string)
    (kwargs : UserFields) (d : Disk) : result * Disk :=
  let users := get_users d in
  match users !! email with
  | Some _ => (RMsg false "Email already exists", d)
  | None =>
      let u := {| u_password := hash_password password;
                  u_role := role;
                  u_created_at := isoformat now;
                  u_name := uf_name kwargs;
                  u_department := uf_department kwargs;
                  u_student_id := uf_student_id kwargs;
                  u_year := uf_year kwargs;
                  u_semester := uf_semester kwargs;
                  u_section := uf_section kwargs |} in
      (RMsg true "User created successfully", save_users (<[email := u]> users) d)
  end.

Definition get_user_by_email (email : string) (d : Disk) : option User :=
  get_users d !! email.

(** The password is re-hashed only when a non-empty one is supplied;
    otherwise the key is dropped from the keyword arguments. *)
Definition update_user_record (kwargs : UserPatch) (u : User) : User :=
  {| u_password :=
       if truthy_str (up_password kwargs)
       then hash_password (default "" (up_password kwargs))
       else u_password u;
     u_role := default (u_role u) (up_role kwargs);
     u_created_at := u_created_at u;
     u_name := updated (uf_name (up_fields kwargs)) (u_name u);
     u_department := updated (uf_department (up_fields kwargs)) (u_department u);
     u_student_id := updated (uf_student_id (up_fields kwargs)) (u_student_id u);
     u_year := updated (uf_year (up_fields kwargs)) (u_year u);
     u_semester := updated (uf_semester (up_fields kwargs)) (u_semester u);
     u_section := updated (uf_section (up_fields kwargs)) (u_section u) |}.

Definition update_user (email : string) (kwargs : UserPatch) (d : Disk)
    : result * Disk :=
  let users := get_users d in
  match users !! email with
  | None => (RMsg false "User not found", d)
  | Some u =>
      (RMsg true "User updated successfully",
       save_users (<[email := update_user_record kwargs u]> users) d)
  end.

Definition delete_user (email : string) (d : Disk) : result * Disk :=
  let users := get_users d in
  match users !! email with
  | None => (RMsg false "User not found", d)
  | Some _ => (RMsg true "User deleted successfully", save_users (delete email users) d)
  end.
End auth.

(** ** Courses *)

Record CoursePatch := {
  cp_course_name : option string;
  cp_department : option (option string);
  cp_teacher_email : option string;
  cp_description : option string;
  cp_credits : option Z
}.

Definition get_courses (d : Disk) : gmap string Course := courses_json d.

Definition add_course (now : Clock) (course_id course_name : string)
    (department : option string) (teacher_email description : string) (credits : Z)
    (d : Disk) : result * Disk :=
  let courses := get_courses d in
  match courses !! course_id with
  | Some _ => (RMsg false "Course ID already exists", d)
  | None =>
      let c := {| c_course_name := course_name;
                  c_department := department;
                  c_teacher_email := teacher_email;
                  c_description := description;
                  c_credits := credits;
                  c_created_at := isoformat now |} in
      (RMsg true "Course added successfully", save_courses (<[course_id := c]> courses) d)
  end.

Definition update_course_record (kwargs : CoursePatch) (c : Course) : Course :=
  {| c_course_name := default (c_course_name c) (cp_course_name kwargs);
     c_department := default (c_department c) (cp_department kwargs);
     c_teacher_email := default (c_teacher_email c) (cp_teacher_email kwargs);
     c_description := default (c_description c) (cp_description kwargs);
     c_credits := default (c_credits c) (cp_credits kwargs);
     c_created_at := c_created_at c |}.

Definition update_course (course_id : string) (kwargs : CoursePatch) (d : Disk)
    : result * Disk :=
  let courses := get_courses d in
  match courses !! course_id with
  | None => (RMsg false "Course not found", d)
  | Some c =>
      (RMsg true "Course updated successfully",
       save_courses (<[course_id := update_course_record kwargs c]> courses) d)
  end.

Definition delete_course (course_id : string) (d : Disk) : result * Disk :=
  let courses := get_courses d in
  match courses !! course_id with
  | None => (RMsg false "Course not found", d)
  | Some _ =>
      (RMsg true "Course deleted successfully", save_courses (delete course_id courses) d)
  end.

Definition get_teacher_courses (teacher_email : string) (d : Disk) : gmap string Course :=
  filter (λ kv, c_teacher_email kv.2 = teacher_email) (get_courses d).

(** ** Departments ([pages/admin/department_management.py]) *)

Definition default_departments (now : Clock) : gmap string Department :=
  <["CS" := {| d_name := "Computer Science"; d_hod_email := "teacher@college.edu";
               d_description := "Department of Computer Science";
               d_created_at := isoformat now |}]>
  (<["MATH" := {| d_name := "Mathematics"; d_hod_email := "teacher@college.edu";
                  d_description := "Department of Mathematics";
                  d_created_at := isoformat now |}]>
  (<["PHY" := {| d_name := "Physics"; d_hod_email := "teacher@college.edu";
                 d_description := "Department of Physics";
                 d_created_at := isoformat now |}]> ∅)).

(** [get_departments] writes the default departments when the file does
    not exist, then reads the file. *)
Definition get_departments (now : Clock) (d : Disk) : gmap string Department * Disk :=
  match departments_json d with
  | Some departments => (departments, d)
  | None =>
      (default_departments now, write_departments (Some (default_departments now)) d)
  end.

Definition save_departments (departments : gmap string Department) (d : Disk) : Disk :=
  write_departments (Some departments) d.

Definition add_department (now : Clock) (dept_id name hod_email description : string)
    (d : Disk) : result * Disk :=
  let '(departments, d) := get_departments now d in
  match departments !! dept_id with
  | Some _ => (RMsg false "Department ID already exists", d)
  | None =>
      let dep := {| d_name := name; d_hod_email := hod_email;
                    d_description := description; d_created_at := isoformat now |} in
      (RMsg true "Department added successfully",
       save_departments (<[dept_id := dep]> departments) d)
  end.

Definition update_department (now : Clock) (dept_id name hod_email description : string)
    (d : Disk) : result * Disk :=
  let '(departments, d) := get_departments now d in
  match departments !! dept_id with
  | None => (RMsg false "Department not found", d)
  | Some dep =>
      let dep' := {| d_name := name; d_hod_email := hod_email;
                     d_description := description; d_created_at := d_created_at dep |} in
      (RMsg true "Department updated successfully",
       save_departments (<[dept_id := dep']> departments) d)
  end.

(** The scan of [delete_department]: some course's [department] equals
    the given name. *)
Definition in_use_by_courses (name : string) (courses : gmap string Course) : bool :=
  bool_decide (map_Exists (λ _ course, c_department course = Some name) courses).

Definition delete_department (now : Clock) (dept_id : string) (d : Disk) : result * Disk :=
  let '(departments, d) := get_departments now d in
  match departments !! dept_id with
  | None => (RMsg false "Department not found", d)
  | Some dep =>
      let courses := get_courses d in
      if in_use_by_courses (d_name dep) courses
      then (RMsg false "Cannot delete department that is in use by courses", d)
      else (RMsg true "Department deleted successfully",
            save_departments (delete dept_id departments) d)
  end.

(** ** Attendance *)

Definition get_attendance (d : Disk) : gmap string (gmap string (gmap string Mark)) :=
  attendance_json d.

(** [attendance[course_id][date][student_email] = {...}], the two
    enclosing dictionaries being created when missing. *)
Definition mark_attendance (now : Clock) (course_id date student_email status : string)
    (d : Disk) : result * Disk :=
  let attendance := get_attendance d in
  let dates := default ∅ (attendance !! course_id) in
  let students := default ∅ (dates !! date) in
  let mark := {| m_status := status; m_marked_at := isoformat now |} in
  let attendance :=
    <[course_id := <[date := <[student_email := mark]> students]> dates]> attendance in
  (RMsg true "Attendance marked successfully", save_attendance attendance d).

(** The record stored for a (course, date, student) triple. *)
Definition attendance_of (course_id date student_email : string) (d : Disk) : option Mark :=
  dates ← get_attendance d !! course_id;
  students ← (dates : gmap string (gmap string Mark)) !! date;
  (students : gmap string Mark) !! student_email.

Definition get_student_attendance (student_email : string) (d : Disk)
    : gmap string (gmap string Mark) :=
  let attendance : gmap string (gmap string (gmap string Mark)) := get_attendance d in
  (λ dates : gmap string (gmap string Mark),
     omap (λ students : gmap string Mark, students !! student_email) dates)
    <$> attendance.

Definition get_course_attendance (course_id : string) (d : Disk)
    : gmap string (gmap string Mark) :=
  default ∅ (get_attendance d !! course_id).

(** ** Assignments *)

Record AssignmentPatch := {
  ap_title : option string;
  ap_description : option string;
  ap_due_date : option string;
  ap_max_points : option Z
}.

Definition get_assignments (d : Disk) : gmap string (list Assignment) := assignments_json d.

Definition create_assignment (now : Clock) (course_id title description due_date : string)
    (max_points : Z) (d : Disk) : result * Disk :=
  let assignments := get_assignments d in
  let existing := default [] (assignments !! course_id) in
  let assignment_id := course_id +:+ "_" +:+ pretty (S (length existing)) in
  let a := {| a_assignment_id := assignment_id; a_title := title;
              a_description := description; a_due_date := due_date;
              a_max_points := max_points; a_created_at := isoformat now |} in
  (RMsgId true "Assignment created successfully" assignment_id,
   save_assignments (<[course_id := existing ++ [a]]> assignments) d).

Definition update_assignment_record (kwargs : AssignmentPatch) (a : Assignment) : Assignment :=
  {| a_assignment_id := a_assignment_id a;
     a_title := default (a_title a) (ap_title kwargs);
     a_description := default (a_description a) (ap_description kwargs);
     a_due_date := default (a_due_date a) (ap_due_date kwargs);
     a_max_points := default (a_max_points a) (ap_max_points kwargs);
     a_created_at := a_created_at a |}.

(** The loops [for i, x in enumerate(xs): if x[key] == wanted: ...;
    return] stop at the first match: [list_find]. *)
Definition update_assignment (course_id assignment_id : string) (kwargs : AssignmentPatch)
    (d : Disk) : result * Disk :=
  let assignments := get_assignments d in
  match assignments !! course_id with
  | None => (RMsg false "Course not found", d)
  | Some l =>
      match list_find (λ a, a_assignment_id a = assignment_id) l with
      | Some (i, a) =>
          (RMsg true "Assignment updated successfully",
           save_assignments
             (<[course_id := <[i := update_assignment_record kwargs a]> l]> assignments) d)
      | None => (RMsg false "Assignment not found", d)
      end
  end.

Definition delete_assignment (course_id assignment_id : string) (d : Disk)
    : result * Disk :=
  let assignments := get_assignments d in
  match assignments !! course_id with
  | None => (RMsg false "Course not found", d)
  | Some l =>
      match list_find (λ a, a_assignment_id a = assignment_id) l with
      | Some (i, _) =>
          (RMsg true "Assignment deleted successfully",
           save_assignments (<[course_id := delete i l]> assignments) d)
      | None => (RMsg false "Assignment not found", d)
      end
  end.

Definition get_course_assignments (course_id : string) (d : Disk) : list Assignment :=
  default [] (get_assignments d !! course_id).

(** ** Submissions *)

Definition get_submissions (d : Disk) : gmap string (list Submission) := submissions_json d.

(** The linear scan of [submit_assignment] and [submit_project]. *)
Definition has_submitted (student_email : string) (l : list Submission) : bool :=
  bool_decide (is_Some (list_find (λ s, s_student_email s = student_email) l)).

Definition submit_assignment (now : Clock) (assignment_id student_email submission_text : string)
    (file_path : option string) (d : Disk) : result * Disk :=
  let submissions := get_submissions d in
  let existing := default [] (submissions !! assignment_id) in
  if has_submitted student_email existing
  then (RMsg false "You have already submitted this assignment", d)
  else
    let s := {| s_student_email := student_email; s_submission_text := submission_text;
                s_file_path := file_path; s_group_members := None;
                s_submitted_at := isoformat now;
                s_grade := None; s_feedback := None; s_graded_at := None |} in
    (RMsg true "Assignment submitted successfully",
     save_submissions (<[assignment_id := existing ++ [s]]> submissions) d).

Definition grade_submission_record (now : Clock) (grade : Z) (feedback : option string)
    (s : Submission) : Submission :=
  {| s_student_email := s_student_email s; s_submission_text := s_submission_text s;
     s_file_path := s_file_path s; s_group_members := s_group_members s;
     s_submitted_at := s_submitted_at s;
     s_grade := Some grade; s_feedback := feedback;
     s_graded_at := Some (isoformat now) |}.

Definition grade_submission (now : Clock) (assignment_id student_email : string) (grade : Z)
    (feedback : option string) (d : Disk) : result * Disk :=
  let submissions := get_submissions d in
  match submissions !! assignment_id with
  | None => (RMsg false "Assignment not found", d)
  | Some l =>
      match list_find (λ s, s_student_email s = student_email) l with
      | Some (i, s) =>
          (RMsg true "Submission graded successfully",
           save_submissions
             (<[assignment_id := <[i := grade_submission_record now grade feedback s]> l]>
                submissions) d)
      | None => (RMsg false "Submission not found", d)
      end
  end.

Definition get_assignment_submissions (assignment_id : string) (d : Disk) : list Submission :=
  default [] (get_submissions d !! assignment_id).

(** The number of stored entries for an (id, student) pair. *)
Definition submission_count (id student_email : string) (d : Disk) : nat :=
  length (filter (λ s, s_student_email s = student_email) (get_assignment_submissions id d)).

(** ** Projects *)

Definition get_projects (d : Disk) : gmap string (list Project) := projects_json d.

Definition create_project (now : Clock) (course_id title description due_date : string)
    (max_points : Z) (group_project : bool) (d : Disk) : result * Disk :=
  let projects := get_projects d in
  let existing := default [] (projects !! course_id) in
  let project_id := course_id +:+ "_project_" +:+ pretty (S (length existing)) in
  let p := {| p_project_id := project_id; p_title := title;
              p_description := description; p_due_date := due_date;
              p_max_points := max_points; p_group_project := group_project;
              p_created_at := isoformat now |} in
  (RMsgId true "Project created successfully" project_id,
   save_projects (<[course_id := existing ++ [p]]> projects) d).

Definition submit_project (now : Clock) (project_id student_email submission_text : string)
    (file_path : option string) (group_members : option (list string)) (d : Disk)
    : result * Disk :=
  let submissions := get_submissions d in
  let existing := default [] (submissions !! project_id) in
  if has_submitted student_email existing
  then (RMsg false "You have already submitted this project", d)
  else
    let s := {| s_student_email := student_email; s_submission_text := submission_text;
                s_file_path := file_path; s_group_members := Some group_members;
                s_submitted_at := isoformat now;
                s_grade := None; s_feedback := None; s_graded_at := None |} in
    (RMsg true "Project submitted successfully",
     save_submissions (<[project_id := existing ++ [s]]> submissions) d).

(** ** Certificates *)

Definition get_certificates (d : Disk) : gmap string (list Certificate) :=
  certificates_json d.

Definition new_certificate (now : Clock) (certificate_id title issuing_organization
    issue_date : string) (file_path : option string) : Certificate :=
  {| ce_certificate_id := certificate_id; ce_title := title;
     ce_issuing_organization := issuing_organization; ce_issue_date := issue_date;
     ce_file_path := file_path; ce_submitted_at := isoformat now;
     ce_verified := false; ce_verified_at := None |}.

Definition submit_certificate (now : Clock) (student_email title issuing_organization
    issue_date : string) (file_path : option string) (d : Disk) : result * Disk :=
  let certificates := get_certificates d in
  let existing := default [] (certificates !! student_email) in
  let certificate_id := student_email +:+ "_" +:+ pretty (S (length existing)) in
  let c := new_certificate now certificate_id title issuing_organization issue_date
             file_path in
  (RMsg true "Certificate submitted successfully",
   save_certificates (<[student_email := existing ++ [c]]> certificates) d).

Definition verify_certificate_record (now : Clock) (c : Certificate) : Certificate :=
  {| ce_certificate_id := ce_certificate_id c; ce_title := ce_title c;
     ce_issuing_organization := ce_issuing_organization c;
     ce_issue_date := ce_issue_date c; ce_file_path := ce_file_path c;
     ce_submitted_at := ce_submitted_at c;
     ce_verified := true; ce_verified_at := Some (isoformat now) |}.

Definition verify_certificate (now : Clock) (student_email certificate_id : string)
    (d : Disk) : result * Disk :=
  let certificates := get_certificates d in
  match certificates !! student_email with
  | None => (RMsg false "Student not found", d)
  | Some l =>
      match list_find (λ c, ce_certificate_id c = certificate_id) l with
      | Some (i, c) =>
          (RMsg true "Certificate verified successfully",
           save_certificates
             (<[student_email := <[i := verify_certificate_record now c]> l]> certificates) d)
      | None => (RMsg false "Certificate not found", d)
      end
  end.

(** *** The certificate query

    [get_student_certificates] does not go through [get_certificates]:
    it loads the relative path ["certificates.json"] and walks the
    document as a dictionary [certificate_id -> record]. *)

Inductive outcome (A : Type) :=
  | Returns (a : A)
  | Raises (exn : string).
Arguments Returns {A} a.
Arguments Raises {A} exn.

(** [dict.get(key)] and [dict[key] = value] on the members of a JSON
    object, kept in insertion order. *)
Fixpoint dict_get (key : string) (members : list (string * json)) : option json :=
  match members with
  | [] => None
  | (k, v) :: rest => if String.eqb k key then Some v else dict_get key rest
  end.

Fixpoint dict_set (key : string) (value : json) (members : list (string * json))
    : list (string * json) :=
  match members with
  | [] => [(key, value)]
  | (k, v) :: rest =>
      if String.eqb k key then (k, value) :: rest else (k, v) :: dict_set key value rest
  end.

(** [cert.get("student_email") == student_email] *)
Definition names_student (student_email : string) (members : list (string * json)) : bool :=
  match dict_get "student_email" members with
  | Some (JStr s) => String.eqb s student_email
  | _ => false
  end.

(** The loop body over [certificates.items()]; [cert.get] raises on
    anything that is not a dictionary. *)
Fixpoint collect_certificates (student_email : string) (items : list (string * json))
    (student_certificates : list json) : outcome (list json) :=
  match items with
  | [] => Returns student_certificates
  | (cert_id, JObj cert) :: rest =>
      if names_student student_email cert
      then collect_certificates student_email rest
             (student_certificates ++ [JObj (dict_set "certificate_id" (JStr cert_id) cert)])
      else collect_certificates student_email rest student_certificates
  | (_, _) :: _ => Raises "AttributeError"
  end.

Definition student_certificates_of (student_email : string) (certificates : json)
    : outcome (list json) :=
  match certificates with
  | JObj items => collect_certificates student_email items []
  | _ => Raises "AttributeError"
  end.

(** [load_data("certificates.json")]: an absent file is created holding
    the empty object. *)
Definition load_cwd_certificates (d : Disk) : json * Disk :=
  match cwd_certificates_json d with
  | Some doc => (doc, d)
  | None => (JObj [], write_cwd_certificates (Some (JObj [])) d)
  end.

Definition get_student_certificates (student_email : string) (d : Disk)
    : outcome (list json) * Disk :=
  let '(certificates, d) := load_cwd_certificates d in
  (student_certificates_of student_email certificates, d).

(** What [save_data(CERTIFICATES_FILE, certificates)] writes. *)
Definition json_of_option_string (o : option string) : json :=
  match o with
  | Some s => JStr s
  | None => JNull
  end.

Definition json_of_certificate (c : Certificate) : json :=
  JObj ([("certificate_id", JStr (ce_certificate_id c));
         ("title", JStr (ce_title c));
         ("issuing_organization", JStr (ce_issuing_organization c));
         ("issue_date", JStr (ce_issue_date c));
         ("file_path", json_of_option_string (ce_file_path c));
         ("submitted_at", JStr (ce_submitted_at c));
         ("verified", JBool (ce_verified c))]
        ++ match ce_verified_at c with
           | Some t => [("verified_at", JStr t)]
           | None => []
           end).

Definition json_of_certificates (certificates : gmap string (list Certificate)) : json :=
  JObj (map_to_list ((λ l, JArr (json_of_certificate <$> l)) <$> certificates)).

(** A record that names the student under the key "student_email", as
    every record that the query returns does. *)
Definition names_student_record (student_email : string) (j : json) : Prop :=
  ∃ members, j = JObj members ∧ names_student student_email members = true.

(** ** Announcements *)

Definition get_announcements (d : Disk) : list Announcement := announcements_json d.

Definition create_announcement (now : Clock) (title content author_email : string)
    (target_roles target_departments target_emails : option (list string)) (d : Disk)
    : result * Disk :=
  let announcements := get_announcements d in
  let announcement_id := S (length announcements) in
  let a := {| an_announcement_id := announcement_id; an_title := title;
              an_content := content; an_author_email := author_email;
              an_target_roles := target_roles;
              an_target_departments := target_departments;
              an_target_emails := target_emails;
              an_created_at := isoformat now |} in
  (RMsg true "Announcement created successfully",
   save_announcements (announcements ++ [a]) d).

Definition delete_announcement (announcement_id : nat) (d : Disk) : result * Disk :=
  let announcements := get_announcements d in
  match list_find (λ a, an_announcement_id a = announcement_id) announcements with
  | Some (i, _) =>
      (RMsg true "Announcement deleted successfully",
       save_announcements (delete i announcements) d)
  | None => (RMsg false "Announcement not found", d)
  end.

(** [viewer and targets and viewer in targets] *)
Definition matches_target (viewer : option string) (targets : option (list string)) : bool :=
  truthy_str viewer && truthy_list targets
  && bool_decide (default "" viewer ∈ default [] targets).

(** The condition of the [if] in [get_filtered_announcements]. *)
Definition visible_to (role department email : option string) (a : Announcement) : bool :=
  (negb (truthy_list (an_target_roles a))
   && negb (truthy_list (an_target_departments a))
   && negb (truthy_list (an_target_emails a)))
  || matches_target role (an_target_roles a)
  || matches_target department (an_target_departments a)
  || matches_target email (an_target_emails a).

Fixpoint filter_announcements (role department email : option string)
    (announcements filtered : list Announcement) : list Announcement :=
  match announcements with
  | [] => filtered
  | announcement :: rest =>
      if visible_to role department email announcement
      then filter_announcements role department email rest (filtered ++ [announcement])
      else filter_announcements role department email rest filtered
  end.

Definition get_filtered_announcements (role department email : option string) (d : Disk)
    : list Announcement :=
  filter_announcements role department email (get_announcements d) [].

(** *** The audience rule in the words of the specification

    A target dimension that is null or the empty list is not set. *)

Definition targets (o : option (list string)) : list string := default [] o.

Definition broadcast (a : Announcement) : Prop :=
  targets (an_target_roles a) = []
  ∧ targets (an_target_departments a) = []
  ∧ targets (an_target_emails a) = [].

(** "The viewer's attribute is supplied and is a member of the targets." *)
Definition supplied_in (viewer : option string) (o : option (list string)) : Prop :=
  ∃ v, viewer = Some v ∧ v ∈ targets o.

Definition audience_as_specified (role department email : option string)
    (a : Announcement) : Prop :=
  broadcast a
  ∨ supplied_in role (an_target_roles a)
  ∨ supplied_in department (an_target_departments a)
  ∨ supplied_in email (an_target_emails a).

(** The same with "supplied" read as Python reads [role and ...]: given
    and not the empty string. *)
Definition given_in (viewer : option string) (o : option (list string)) : Prop :=
  ∃ v, viewer = Some v ∧ v ≠ "" ∧ v ∈ targets o.

Definition audience (role department email : option string) (a : Announcement) : Prop :=
  broadcast a
  ∨ given_in role (an_target_roles a)
  ∨ given_in department (an_target_departments a)
  ∨ given_in email (an_target_emails a).

(** ** Removing a student from a course

    The attendance entries of the student are deleted on every date of
    the course; when at least one was deleted, the student's submissions
    to the course's assignments and projects are filtered out as well. *)

Definition drop_submissions (student_email : string) (ids : list string)
    (submissions : gmap string (list Submission)) : gmap string (list Submission) :=
  foldl (λ subs id, alter (filter (λ s, s_student_email s ≠ student_email)) id subs)
        submissions ids.

Definition remove_student_from_course (course_id student_email : string) (d : Disk)
    : result * Disk :=
  let attendance := get_attendance d in
  match attendance !! course_id with
  | None => (RMsg false "Course not found", d)
  | Some dates =>
      let removed :=
        bool_decide (map_Exists (λ _ (students : gmap string Mark),
                                   is_Some (students !! student_email)) dates) in
      if removed then
        let dates := delete student_email <$> dates in
        let d := save_attendance (<[course_id := dates]> attendance) d in
        let submissions := get_submissions d in
        let assignments := default [] (get_assignments d !! course_id) in
        let projects := default [] (get_projects d !! course_id) in
        let submissions :=
          drop_submissions student_email (a_assignment_id <$> assignments) submissions in
        let submissions :=
          drop_submissions student_email (p_project_id <$> projects) submissions in
        (RMsg true ("Student " +:+ student_email +:+ " removed from course " +:+ course_id),
         save_submissions submissions d)
      else
        (RMsg false ("Student " +:+ student_email +:+ " not found in course " +:+ course_id),
         d)
  end.

(** ** Subjects *)

Definition get_subjects (d : Disk) : gmap string Subject := subjects_json d.

Definition get_subject (subject_id : string) (d : Disk) : option Subject :=
  get_subjects d !! subject_id.

Definition add_subject (now : Clock) (subject_name : string) (semester : Z)
    (department : option string) (d : Disk) : result * Disk :=
  let subjects := get_subjects d in
  let subject_id := "subject_" +:+ pretty (S (size subjects)) +:+ "_" +:+ strftime_id now in
  let s := {| sj_subject_id := subject_id; sj_subject_name := subject_name;
              sj_semester := semester; sj_department := department |} in
  (RId subject_id, save_subjects (<[subject_id := s]> subjects) d).

(** Each field is overwritten only when the argument is truthy. *)
Definition update_subject_record (subject_name : option string) (semester : option Z)
    (department : option string) (s : Subject) : Subject :=
  {| sj_subject_id := sj_subject_id s;
     sj_subject_name :=
       if truthy_str subject_name then default "" subject_name else sj_subject_name s;
     sj_semester := if truthy_int semester then default 0%Z semester else sj_semester s;
     sj_department := if truthy_str department then department else sj_department s |}.

Definition update_subject (subject_id : string) (subject_name : option string)
    (semester : option Z) (department : option string) (d : Disk) : result * Disk :=
  let subjects := get_subjects d in
  match subjects !! subject_id with
  | None => (RBool false, d)
  | Some s =>
      (RBool true,
       save_subjects
         (<[subject_id := update_subject_record subject_name semester department s]>
            subjects) d)
  end.

Definition delete_subject (subject_id : string) (d : Disk) : result * Disk :=
  let subjects := get_subjects d in
  match subjects !! subject_id with
  | None => (RBool false, d)
  | Some _ => (RBool true, save_subjects (delete subject_id subjects) d)
  end.

(** ** Exam results *)

Definition get_exam_results (d : Disk) : gmap string (gmap string (gmap string ExamResult)) :=
  exam_results_json d.

Definition get_exam_results_by_exam (exam_id : string) (d : Disk)
    : gmap string (gmap string ExamResult) :=
  default ∅ (get_exam_results d !! exam_id).

Definition add_exam_result (now : Clock) (exam_id student_email subject_id : string)
    (marks : Z) (remarks : option string) (d : Disk) : result * Disk :=
  let results := get_exam_results d in
  let students := default ∅ (results !! exam_id) in
  let subjects := default ∅ (students !! student_email) in
  let r := {| r_marks := marks; r_remarks := remarks; r_updated_at := strftime_human now |} in
  (RBool true,
   save_exam_results
     (<[exam_id := <[student_email := <[subject_id := r]> subjects]> students]> results) d).

(** A student left without results and an exam left without students
    are removed. *)
Definition delete_exam_result (exam_id student_email subject_id : string) (d : Disk)
    : result * Disk :=
  let results := get_exam_results d in
  match results !! exam_id with
  | None => (RBool false, d)
  | Some students =>
      match students !! student_email with
      | None => (RBool false, d)
      | Some subjects =>
          match subjects !! subject_id with
          | None => (RBool false, d)
          | Some _ =>
              let subjects := delete subject_id subjects in
              let students :=
                if bool_decide (subjects = ∅) then delete student_email students
                else <[student_email := subjects]> students in
              let results :=
                if bool_decide (students = ∅) then delete exam_id results
                else <[exam_id := students]> results in
              (RBool true, save_exam_results results d)
          end
      end
  end.

Definition delete_exam_results (exam_id : string) (d : Disk) : result * Disk :=
  let results := get_exam_results d in
  match results !! exam_id with
  | None => (RBool false, d)
  | Some _ => (RBool true, save_exam_results (delete exam_id results) d)
  end.

(** ** Exams *)

Definition get_exams (d : Disk) : gmap string Exam := exams_json d.

Definition get_exam (exam_id : string) (d : Disk) : option Exam := get_exams d !! exam_id.

Definition add_exam (now : Clock) (exam_name exam_type : string) (semester : Z)
    (date : string) (max_marks : Z) (d : Disk) : result * Disk :=
  let exams := get_exams d in
  let exam_id := "exam_" +:+ pretty (S (size exams)) +:+ "_" +:+ strftime_id now in
  let e := {| e_exam_id := exam_id; e_exam_name := exam_name; e_exam_type := exam_type;
              e_semester := semester; e_date := date; e_max_marks := max_marks;
              e_created_at := strftime_human now |} in
  (RId exam_id, save_exams (<[exam_id := e]> exams) d).

Definition update_exam_record (exam_name exam_type : option string) (semester : option Z)
    (date : option string) (max_marks : option Z) (e : Exam) : Exam :=
  {| e_exam_id := e_exam_id e;
     e_exam_name := if truthy_str exam_name then default "" exam_name else e_exam_name e;
     e_exam_type := if truthy_str exam_type then default "" exam_type else e_exam_type e;
     e_semester := if truthy_int semester then default 0%Z semester else e_semester e;
     e_date := if truthy_str date then default "" date else e_date e;
     e_max_marks := if truthy_int max_marks then default 0%Z max_marks else e_max_marks e;
     e_created_at := e_created_at e |}.

Definition update_exam (exam_id : string) (exam_name exam_type : option string)
    (semester : option Z) (date : option string) (max_marks : option Z) (d : Disk)
    : result * Disk :=
  let exams := get_exams d in
  match exams !! exam_id with
  | None => (RBool false, d)
  | Some e =>
      (RBool true,
       save_exams
         (<[exam_id := update_exam_record exam_name exam_type semester date max_marks e]>
            exams) d)
  end.

(** The result of [delete_exam_results] is dropped; only its effect on
    the data directory is kept. *)
Definition delete_exam (exam_id : string) (d : Disk) : result * Disk :=
  let exams := get_exams d in
  match exams !! exam_id with
  | None => (RBool false, d)
  | Some _ =>
      let d := save_exams (delete exam_id exams) d in
      let '(_, d) := delete_exam_results exam_id d in
      (RBool true, d)
  end.

(** ** The mutating interface

    One constructor per mutating function of the three modules, with the
    arguments of the call. *)

Inductive call :=
  | CreateUser (email password role : string) (kwargs : UserFields)
  | UpdateUser (email : string) (kwargs : UserPatch)
  | DeleteUser (email : string)
  | AddCourse (course_id course_name : string) (department : option string)
      (teacher_email description : string) (credits : Z)
  | UpdateCourse (course_id : string) (kwargs : CoursePatch)
  | DeleteCourse (course_id : string)
  | AddDepartment (dept_id name hod_email description : string)
  | UpdateDepartment (dept_id name hod_email description : string)
  | DeleteDepartment (dept_id : string)
  | MarkAttendance (course_id date student_email status : string)
  | RemoveStudentFromCourse (course_id student_email : string)
  | CreateAssignment (course_id title description due_date : string) (max_points : Z)
  | UpdateAssignment (course_id assignment_id : string) (kwargs : AssignmentPatch)
  | DeleteAssignment (course_id assignment_id : string)
  | SubmitAssignment (assignment_id student_email submission_text : string)
      (file_path : option string)
  | GradeSubmission (assignment_id student_email : string) (grade : Z)
      (feedback : option string)
  | CreateProject (course_id title description due_date : string) (max_points : Z)
      (group_project : bool)
  | SubmitProject (project_id student_email submission_text : string)
      (file_path : option string) (group_members : option (list string))
  | SubmitCertificate (student_email title issuing_organization issue_date : string)
      (file_path : option string)
  | VerifyCertificate (student_email certificate_id : string)
  | CreateAnnouncement (title content author_email : string)
      (target_roles target_departments target_emails : option (list string))
  | DeleteAnnouncement (announcement_id : nat)
  | AddSubject (subject_name : string) (semester : Z) (department : option string)
  | UpdateSubject (subject_id : string) (subject_name : option string)
      (semester : option Z) (department : option string)
  | DeleteSubject (subject_id : string)
  | AddExam (exam_name exam_type : string) (semester : Z) (date : string) (max_marks : Z)
  | UpdateExam (exam_id : string) (exam_name exam_type : option string)
      (semester : option Z) (date : option string) (max_marks : option Z)
  | DeleteExam (exam_id : string)
  | AddExamResult (exam_id student_email subject_id : string) (marks : Z)
      (remarks : option string)
  | DeleteExamResult (exam_id student_email subject_id : string)
  | DeleteExamResults (exam_id : string).

Definition run (hash_password : string -> string) (now : Clock) (c : call) (d : Disk)
    : result * Disk :=
  match c with
  | CreateUser email password role kwargs =>
      create_user hash_password now email password role kwargs d
  | UpdateUser email kwargs => update_user hash_password email kwargs d
  | DeleteUser email => delete_user email d
  | AddCourse course_id course_name department teacher_email description credits =>
      add_course now course_id course_name department teacher_email description credits d
  | UpdateCourse course_id kwargs => update_course course_id kwargs d
  | DeleteCourse course_id => delete_course course_id d
  | AddDepartment dept_id name hod_email description =>
      add_department now dept_id name hod_email description d
  | UpdateDepartment dept_id name hod_email description =>
      update_department now dept_id name hod_email description d
  | DeleteDepartment dept_id => delete_department now dept_id d
  | MarkAttendance course_id date student_email status =>
      mark_attendance now course_id date student_email status d
  | RemoveStudentFromCourse course_id student_email =>
      remove_student_from_course course_id student_email d
  | CreateAssignment course_id title description due_date max_points =>
      create_assignment now course_id title description due_date max_points d
  | UpdateAssignment course_id assignment_id kwargs =>
      update_assignment course_id assignment_id kwargs d
  | DeleteAssignment course_id assignment_id => delete_assignment course_id assignment_id d
  | SubmitAssignment assignment_id student_email submission_text file_path =>
      submit_assignment now assignment_id student_email submission_text file_path d
  | GradeSubmission assignment_id student_email grade feedback =>
      grade_submission now assignment_id student_email grade feedback d
  | CreateProject course_id title description due_date max_points group_project =>
      create_project now course_id title description due_date max_points group_project d
  | SubmitProject project_id student_email submission_text file_path group_members =>
      submit_project now project_id student_email submission_text file_path group_members d
  | SubmitCertificate student_email title issuing_organization issue_date file_path =>
      submit_certificate now student_email title issuing_organization issue_date file_path d
  | VerifyCertificate student_email certificate_id =>
      verify_certificate now student_email certificate_id d
  | CreateAnnouncement title content author_email target_roles target_departments
      target_emails =>
      create_announcement now title content author_email target_roles target_departments
        target_emails d
  | DeleteAnnouncement announcement_id => delete_announcement announcement_id d
  | AddSubject subject_name semester department =>
      add_subject now subject_name semester department d
  | UpdateSubject subject_id subject_name semester department =>
      update_subject subject_id subject_name semester department d
  | DeleteSubject subject_id => delete_subject subject_id d
  | AddExam exam_name exam_type semester date max_marks =>
      add_exam now exam_name exam_type semester date max_marks d
  | UpdateExam exam_id exam_name exam_type semester date max_marks =>
      update_exam exam_id exam_name exam_type semester date max_marks d
  | DeleteExam exam_id => delete_exam exam_id d
  | AddExamResult exam_id student_email subject_id marks remarks =>
      add_exam_result now exam_id student_email subject_id marks remarks d
  | DeleteExamResult exam_id student_email subject_id =>
      delete_exam_result exam_id student_email subject_id d
  | DeleteExamResults exam_id => delete_exam_results exam_id d
  end.

(** The repositories of a call. *)
Inductive repository :=
  | Users | Courses | Departments | Attendance | Assignments | Submissions | Projects
  | Certificates | Announcements | Subjects | Exams | ExamResults.

Definition repository_of (c : call) : repository :=
  match c with
  | CreateUser _ _ _ _ | UpdateUser _ _ | DeleteUser _ => Users
  | AddCourse _ _ _ _ _ _ | UpdateCourse _ _ | DeleteCourse _ => Courses
  | AddDepartment _ _ _ _ | UpdateDepartment _ _ _ _ | DeleteDepartment _ => Departments
  | MarkAttendance _ _ _ _ | RemoveStudentFromCourse _ _ => Attendance
  | CreateAssignment _ _ _ _ _ | UpdateAssignment _ _ _ | DeleteAssignment _ _ => Assignments
  | SubmitAssignment _ _ _ _ | GradeSubmission _ _ _ _ | SubmitProject _ _ _ _ _ =>
      Submissions
  | CreateProject _ _ _ _ _ _ => Projects
  | SubmitCertificate _ _ _ _ _ | VerifyCertificate _ _ => Certificates
  | CreateAnnouncement _ _ _ _ _ _ | DeleteAnnouncement _ => Announcements
  | AddSubject _ _ _ | UpdateSubject _ _ _ _ | DeleteSubject _ => Subjects
  | AddExam _ _ _ _ _ | UpdateExam _ _ _ _ _ _ | DeleteExam _ => Exams
  | AddExamResult _ _ _ _ _ | DeleteExamResult _ _ _ | DeleteExamResults _ => ExamResults
  end.

(** The four shapes of a return value, and the shape each function
    returns. *)
Inductive shape := BareFlag | BareId | FlagMessage | FlagMessageId.

Definition shape_of (r : result) : shape :=
  match r with
  | RBool _ => BareFlag
  | RId _ => BareId
  | RMsg _ _ => FlagMessage
  | RMsgId _ _ _ => FlagMessageId
  end.

Definition declared_shape (c : call) : shape :=
  match c with
  | AddExam _ _ _ _ _ | AddSubject _ _ _ => BareId
  | UpdateExam _ _ _ _ _ _ | DeleteExam _ | UpdateSubject _ _ _ _ | DeleteSubject _
  | AddExamResult _ _ _ _ _ | DeleteExamResult _ _ _ | DeleteExamResults _ => BareFlag
  | CreateAssignment _ _ _ _ _ | CreateProject _ _ _ _ _ _ => FlagMessageId
  | _ => FlagMessage
  end.

(** The repositories whose functions return a flag with a message. *)
Definition message_repository (r : repository) : bool :=
  match r with
  | Subjects | Exams | ExamResults => false
  | _ => true
  end.

(** A data directory whose documents are all empty, before
    [departments.json] or the relative ["certificates.json"] is first
    read. *)
Definition empty_disk : Disk :=
  {| users_json := ∅; courses_json := ∅; attendance_json := ∅; assignments_json := ∅;
     submissions_json := ∅; projects_json := ∅; certificates_json := ∅;
     announcements_json := []; exams_json := ∅; subjects_json := ∅;
     exam_results_json := ∅; departments_json := None; cwd_certificates_json := None |}.


(** * Further functions of the three modules *)

(** ** Queries that re-shape a document *)

(** [get_student_submissions]: every submission of the student, paired
    with the id it is stored under (the source adds the id to a copy of
    the record).  The ids are visited in the order of the map. *)
Definition get_student_submissions (student_email : string) (d : Disk)
    : list (string * Submission) :=
  '(assignment_id, assignment_submissions) ← map_to_list (get_submissions d);
  submission ← filter (λ s, s_student_email s = student_email) assignment_submissions;
  [(assignment_id, submission)].

(** [get_student_exam_results]: for every exam that has an entry of the
    student, that entry. *)
Definition get_student_exam_results (student_email : string) (d : Disk)
    : gmap string (gmap string ExamResult) :=
  let results : gmap string (gmap string (gmap string ExamResult)) := get_exam_results d in
  omap (λ exam_data : gmap string (gmap string ExamResult), exam_data !! student_email)
       results.

(** The result stored for an (exam, student, subject) triple. *)
Definition exam_result_of (exam_id student_email subject_id : string) (d : Disk)
    : option ExamResult :=
  students ← get_exam_results d !! exam_id;
  subjects ← (students : gmap string (gmap string ExamResult)) !! student_email;
  (subjects : gmap string ExamResult) !! subject_id.

(** ** The session and the page guards ([utils/auth.py])

    [st.session_state] holds the logged-in user under the key "user"
    (absent, [None] or a user record) and may hold the key
    "authentication_status". *)

Record Session := {
  ss_user : option (option User);
  ss_authentication_status : option bool
}.

Definition is_authenticated (s : Session) : bool :=
  match ss_user s with
  | Some (Some _) => true
  | _ => false
  end.

(** What a guarded page does: it runs, or [st.stop()] ends the script
    after a warning or an error was shown. *)
Inductive page (A : Type) :=
  | Ran (a : A)
  | StoppedWarning (message : string)
  | StoppedError (message : string).
Arguments Ran {A} a.
Arguments StoppedWarning {A} message.
Arguments StoppedError {A} message.

Definition login_required {A} (func : A) (s : Session) : page A :=
  if negb (is_authenticated s)
  then StoppedWarning "Please login to access this page."
  else Ran func.

Definition role_required {A} (roles : list string) (func : A) (s : Session) : page A :=
  match ss_user s with
  | Some (Some user) =>
      if bool_decide (u_role user ∈ roles)
      then Ran func
      else StoppedError "You don't have permission to access this page."
  | _ => StoppedWarning "Please login to access this page."
  end.

Definition logout (s : Session) : Session :=
  {| ss_user := None; ss_authentication_status := None |}.

Definition get_current_user (s : Session) : option User :=
  if is_authenticated s then default None (ss_user s) else None.

(** The login page stores the authenticated user in the session; a
    failed [authenticate] leaves the session as it is. *)
Definition login (hash_password : string → string) (email password : string)
    (d : Disk) (s : Session) : Session :=
  if negb (String.eqb email "") && negb (String.eqb password "") then
    match authenticate hash_password email password d with
    | Some user =>
        {| ss_user := Some (Some user);
           ss_authentication_status := ss_authentication_status s |}
    | None => s
    end
  else s.

(** ** The document store ([load_data], [save_data], [init_data_files])

    The files of the file system by path, each holding a parsed JSON
    document.  [data_dir] is [DATA_DIR]; [os.path.join] puts a slash
    between the directory and the file name. *)

Section store.
Variable data_dir : string.

Definition data_file (name : string) : string := data_dir +:+ "/" +:+ name.

Definition COURSES_FILE : string := data_file "courses.json".
Definition ATTENDANCE_FILE : string := data_file "attendance.json".
Definition ASSIGNMENTS_FILE : string := data_file "assignments.json".
Definition SUBMISSIONS_FILE : string := data_file "submissions.json".
Definition PROJECTS_FILE : string := data_file "projects.json".
Definition CERTIFICATES_FILE : string := data_file "certificates.json".
Definition ANNOUNCEMENTS_FILE : string := data_file "announcements.json".
Definition EXAMS_FILE : string := data_file "exams.json".
Definition SUBJECTS_FILE : string := data_file "subjects.json".
Definition EXAM_RESULTS_FILE : string := data_file "exam_results.json".

Definition default_files : list (string * json) :=
  [ (COURSES_FILE, JObj []); (ATTENDANCE_FILE, JObj []); (ASSIGNMENTS_FILE, JObj []);
    (SUBMISSIONS_FILE, JObj []); (PROJECTS_FILE, JObj []); (CERTIFICATES_FILE, JObj []);
    (ANNOUNCEMENTS_FILE, JArr []); (EXAMS_FILE, JObj []); (SUBJECTS_FILE, JObj []);
    (EXAM_RESULTS_FILE, JObj []) ].

(** One round of the loop of [init_data_files]. *)
Definition init_file (files : gmap string json) (entry : string * json)
    : gmap string json :=
  match files !! entry.1 with
  | Some _ => files
  | None => <[entry.1 := entry.2]> files
  end.

Definition init_data_files (files : gmap string json) : gmap string json :=
  foldl init_file files default_files.

Definition load_data (file_path : string) (files : gmap string json)
    : json * gmap string json :=
  match files !! file_path with
  | Some data => (data, files)
  | None =>
      let data := if String.eqb file_path ANNOUNCEMENTS_FILE then JArr [] else JObj [] in
      (data, <[file_path := data]> files)
  end.

Definition save_data (file_path : string) (data : json) (files : gmap string json)
    : gmap string json :=
  <[file_path := data]> files.
End store.

(** ** Invariants of the documents *)

(** The k-th entry of a list carries the id [number k], counting from
    one: the numbering that [create_assignment], [create_project] and
    [submit_certificate] produce while nothing is deleted. *)
Definition numbered {A} (id_of : A → string) (number : nat → string) (l : list A) : Prop :=
  ∀ i x, l !! i = Some x → id_of x = number (S i).

(** The id formats of the source. *)
Definition assignment_number (course_id : string) (n : nat) : string :=
  course_id +:+ "_" +:+ pretty n.

Definition project_number (course_id : string) (n : nat) : string :=
  course_id +:+ "_project_" +:+ pretty n.

Definition certificate_number (student_email : string) (n : nat) : string :=
  student_email +:+ "_" +:+ pretty n.

(** No empty dictionary inside the exam-results document. *)
Definition tidy (results : gmap string (gmap string (gmap string ExamResult))) : Prop :=
  ∀ exam_id students, results !! exam_id = Some students →
    students ≠ ∅
    ∧ ∀ student_email subjects, students !! student_email = Some subjects → subjects ≠ ∅.

(** Every exam and subject is stored under the id it carries. *)
Definition keyed_by_id (d : Disk) : Prop :=
  (∀ k e, get_exams d !! k = Some e → e_exam_id e = k)
  ∧ (∀ k s, get_subjects d !! k = Some s → sj_subject_id s = k).

(** The ids of a list of assignments. *)
Definition assignment_ids (l : list Assignment) : list string := a_assignment_id <$> l.
(** * Scenarios

    Concrete data directories, used to run the functions. *)

Definition clock0 : Clock :=
  {| isoformat := "2024-01-10T09:00:00"; strftime_id := "20240110090000";
     strftime_human := "2024-01-10 09:00:00" |}.

Definition clock1 : Clock :=
  {| isoformat := "2024-01-11T10:30:00"; strftime_id := "20240111103000";
     strftime_human := "2024-01-11 10:30:00" |}.

(** A department named "CS" and the course CS101 of that department. *)
Definition cs_department : Department :=
  {| d_name := "CS"; d_hod_email := "teacher@x.edu";
     d_description := "Computer Science"; d_created_at := "2024-01-01T00:00:00" |}.

Definition cs101 : Course :=
  {| c_course_name := "Programming"; c_department := Some "CS";
     c_teacher_email := "teacher@x.edu"; c_description := ""; c_credits := 3;
     c_created_at := "2024-01-01T00:00:00" |}.

Definition cs_disk : Disk :=
  save_courses {[ "CS101" := cs101 ]}
    (write_departments (Some {[ "CS" := cs_department ]}) empty_disk).

(** One submission of student@x.edu to the assignment CS101_1. *)
Definition answer : Submission :=
  {| s_student_email := "student@x.edu"; s_submission_text := "answer";
     s_file_path := None; s_group_members := None;
     s_submitted_at := "2024-01-10T09:00:00";
     s_grade := None; s_feedback := None; s_graded_at := None |}.

Definition submitted_disk : Disk :=
  save_submissions {[ "CS101_1" := [answer] ]} cs_disk.

(** A stand-in digest for running [authenticate], and the bootstrap
    administrator stored under it. *)
Definition tagged_digest (password : string) : string := "sha256:" +:+ password.

Definition admin_user : User :=
  {| u_password := tagged_digest "admin123"; u_role := "admin";
     u_created_at := "2024-01-01T00:00:00"; u_name := Some "Admin User";
     u_department := None; u_student_id := None; u_year := None;
     u_semester := None; u_section := None |}.

Definition admin_disk : Disk := save_users {[ "admin@college.edu" := admin_user ]} empty_disk.

(** One exam with one result, and a result of another exam. *)
Definition midsem : Exam :=
  {| e_exam_id := "exam_1_20240110090000"; e_exam_name := "Mid Sem";
     e_exam_type := "Mid Sem 1"; e_semester := 1; e_date := "2024-02-01";
     e_max_marks := 100; e_created_at := "2024-01-10 09:00:00" |}.

Definition a_result : ExamResult :=
  {| r_marks := 70; r_remarks := None; r_updated_at := "2024-02-02 12:00:00" |}.

Definition exam_disk : Disk :=
  save_exam_results
    (<["exam_1_20240110090000" := {[ "student@x.edu" := {[ "subject_1" := a_result ]} ]}]>
       {[ "exam_2_20240110090000" := {[ "student@x.edu" := {[ "subject_1" := a_result ]} ]} ]})
    (save_exams {[ "exam_1_20240110090000" := midsem ]} empty_disk).

(** Announcements: one for teachers only, one for everyone, and one
    whose only target department is the empty string. *)
Definition teachers_notice : Announcement :=
  {| an_announcement_id := 1; an_title := "Staff meeting"; an_content := "Friday";
     an_author_email := "admin@college.edu";
     an_target_roles := Some ["teacher"]; an_target_departments := None;
     an_target_emails := None; an_created_at := "2024-01-10T09:00:00" |}.

Definition general_notice : Announcement :=
  {| an_announcement_id := 2; an_title := "Holiday"; an_content := "Monday";
     an_author_email := "admin@college.edu";
     an_target_roles := None; an_target_departments := None;
     an_target_emails := None; an_created_at := "2024-01-10T09:00:00" |}.

Definition notice_disk : Disk :=
  save_announcements [teachers_notice; general_notice] empty_disk.

Definition blank_department_notice : Announcement :=
  {| an_announcement_id := 1; an_title := "Notice"; an_content := "text";
     an_author_email := "admin@college.edu";
     an_target_roles := None; an_target_departments := Some [""];
     an_target_emails := None; an_created_at := "2024-01-10T09:00:00" |}.

Definition blank_disk : Disk := save_announcements [blank_department_notice] empty_disk.

(** The keyword arguments of a teacher account. *)
Definition teacher_fields : UserFields :=
  {| uf_name := Some "Demo Teacher"; uf_department := Some "CS"; uf_student_id := None;
     uf_year := None; uf_semester := None; uf_section := None |}.

Definition no_fields : UserFields :=
  {| uf_name := None; uf_department := None; uf_student_id := None;
     uf_year := None; uf_semester := None; uf_section := None |}.

(** Two assignments of CS101, numbered as [create_assignment] numbers
    them. *)
Definition homework1 : Assignment :=
  {| a_assignment_id := "CS101_1"; a_title := "Lists"; a_description := "";
     a_due_date := "2024-02-01"; a_max_points := 100;
     a_created_at := "2024-01-10T09:00:00" |}.

Definition homework2 : Assignment :=
  {| a_assignment_id := "CS101_2"; a_title := "Trees"; a_description := "";
     a_due_date := "2024-03-01"; a_max_points := 100;
     a_created_at := "2024-01-11T10:30:00" |}.

Definition homework_disk : Disk :=
  save_assignments {[ "CS101" := [homework1; homework2] ]} submitted_disk.


(** A session after logout, and the session of the administrator. *)
Definition no_session : Session := {| ss_user := None; ss_authentication_status := None |}.

Definition admin_session : Session :=
  {| ss_user := Some (Some admin_user); ss_authentication_status := None |}.

(** A file system that holds a courses document and nothing else. *)
Definition some_courses : json := JObj [("CS101", JObj [("course_name", JStr "Programming")])].

Definition one_file : gmap string json := {[ COURSES_FILE "data" := some_courses ]}.

(** * Properties *)

(** ** Helper lemmas *)


Lemma in_use_by_courses_false (name : string) (courses : gmap string Course) :
  in_use_by_courses name courses = false ↔
  ∀ course_id course, courses !! course_id = Some course → c_department course ≠ Some name.
Proof.
  unfold in_use_by_courses. rewrite bool_decide_eq_false. split.
  - intros Hno course_id course Hc Hd. apply Hno. exists course_id, course. done.
  - intros Hall (course_id & course & Hc & Hd). exact (Hall _ _ Hc Hd).
Qed.


Lemma get_departments_courses (now : Clock) (d : Disk) :
  get_courses (snd (get_departments now d)) = get_courses d.
Proof. unfold get_departments. destruct (departments_json d); done. Qed.

Lemma get_departments_existing (now : Clock) (d : Disk) :
  is_Some (departments_json d) → snd (get_departments now d) = d.
Proof. intros [m Hm]. unfold get_departments. rewrite Hm. done. Qed.

(** ** The department delete guard *)



(** ** Submissions *)

Lemma has_submitted_true (student_email : string) (l : list Submission) :
  has_submitted student_email l = true ↔
  ∃ s, s ∈ l ∧ s_student_email s = student_email.
Proof.
  unfold has_submitted. rewrite bool_decide_eq_true. split.
  - intros [[i s] Hfind]. apply list_find_Some in Hfind as (Hl & Hs & _).
    exists s. split; [|done]. by eapply list_elem_of_lookup_2.
  - intros (s & Hin & Hs). by eapply list_find_elem_of.
Qed.

Lemma has_submitted_false (student_email : string) (l : list Submission) :
  has_submitted student_email l = false ↔
  ∀ s, s ∈ l → s_student_email s ≠ student_email.
Proof.
  rewrite <- not_true_iff_false, has_submitted_true. split.
  - intros Hno s Hin Hs. apply Hno. by exists s.
  - intros Hall (s & Hin & Hs). by apply (Hall s).
Qed.

Lemma count_zero_iff (student_email : string) (l : list Submission) :
  length (filter (λ s, s_student_email s = student_email) l) = 0 ↔
  ∀ s, s ∈ l → s_student_email s ≠ student_email.
Proof.
  induction l as [|x l IH]; simpl.
  - split; [intros _ s Hs; by apply elem_of_nil in Hs | done].
  - rewrite filter_cons. destruct (decide (s_student_email x = student_email)) as [Hx|Hx]; simpl.
    + split; [done|]. intros Hall. exfalso. apply (Hall x); [left | done].
    + rewrite IH. split.
      * intros Hall s Hs. apply elem_of_cons in Hs as [->|Hs]; [done | by apply Hall].
      * intros Hall s Hs. apply Hall. by right.
Qed.

Lemma count_append (student_email : string) (l : list Submission) (s : Submission) :
  s_student_email s = student_email →
  length (filter (λ s, s_student_email s = student_email) (l ++ [s]))
  = S (length (filter (λ s, s_student_email s = student_email) l)).
Proof.
  intros Hs. rewrite filter_app, length_app, filter_cons_True by done. simpl. lia.
Qed.

Lemma count_append_other (student_email : string) (l : list Submission) (s : Submission) :
  s_student_email s ≠ student_email →
  length (filter (λ s, s_student_email s = student_email) (l ++ [s]))
  = length (filter (λ s, s_student_email s = student_email) l).
Proof.
  intros Hs. rewrite filter_app, length_app, filter_cons_False by done. simpl. lia.
Qed.

(** What a submit does to the submissions document, by the result of
    the scan. *)
Lemma submit_assignment_cases (now : Clock) (id student_email text : string)
    (file_path : option string) (d : Disk) :
  (has_submitted student_email (get_assignment_submissions id d) = true
   ∧ submit_assignment now id student_email text file_path d
     = (RMsg false "You have already submitted this assignment", d))
  ∨ (has_submitted student_email (get_assignment_submissions id d) = false
     ∧ ∃ s, s_student_email s = student_email
        ∧ submit_assignment now id student_email text file_path d
          = (RMsg true "Assignment submitted successfully",
             save_submissions
               (<[id := get_assignment_submissions id d ++ [s]]> (get_submissions d)) d)).
Proof.
  unfold submit_assignment, get_assignment_submissions.
  destruct (has_submitted student_email (default [] (get_submissions d !! id))) eqn:E.
  - left. done.
  - right. split; [done|]. eexists. split; [|reflexivity]. done.
Qed.

Lemma submit_project_cases (now : Clock) (id student_email text : string)
    (file_path : option string) (group_members : option (list string)) (d : Disk) :
  (has_submitted student_email (get_assignment_submissions id d) = true
   ∧ submit_project now id student_email text file_path group_members d
     = (RMsg false "You have already submitted this project", d))
  ∨ (has_submitted student_email (get_assignment_submissions id d) = false
     ∧ ∃ s, s_student_email s = student_email
        ∧ submit_project now id student_email text file_path group_members d
          = (RMsg true "Project submitted successfully",
             save_submissions
               (<[id := get_assignment_submissions id d ++ [s]]> (get_submissions d)) d)).
Proof.
  unfold submit_project, get_assignment_submissions.
  destruct (has_submitted student_email (default [] (get_submissions d !! id))) eqn:E.
  - left. done.
  - right. split; [done|]. eexists. split; [|reflexivity]. done.
Qed.

(** The entry counts after one more entry is appended under [id]. *)
Lemma count_after_append (id : string) (s : Submission) (d : Disk)
    (i e : string) :
  submission_count i e
    (save_submissions (<[id := get_assignment_submissions id d ++ [s]]> (get_submissions d)) d)
  = if decide (i = id ∧ s_student_email s = e)
    then S (submission_count i e d) else submission_count i e d.
Proof.
  unfold submission_count, get_assignment_submissions, get_submissions. simpl.
  destruct (decide (i = id)) as [->|Hne].
  - rewrite lookup_insert_eq. simpl.
    destruct (decide (s_student_email s = e)) as [He|He].
    + rewrite decide_True by done. by apply count_append.
    + rewrite decide_False by tauto. by apply count_append_other.
  - rewrite lookup_insert_ne by done. rewrite decide_False by tauto. done.
Qed.

Lemma not_submitted_count (id student_email : string) (d : Disk) :
  has_submitted student_email (get_assignment_submissions id d) = false →
  submission_count id student_email d = 0.
Proof.
  intros Hf. unfold submission_count. apply count_zero_iff.
  by apply has_submitted_false.
Qed.

(** C1. Submission uniqueness, for [submit_assignment] and
    [submit_project] alike.  When the submissions document already holds
    an entry for the (id, student) pair, the submit returns the conflict
    message and the data directory is unchanged.  When it holds none,
    the submit succeeds, appends one entry for the pair to the list of
    that id and leaves every other list alone.  In both cases a pair
    with at most one entry before has exactly one after, and "at most
    one entry per pair" is preserved for every pair. *)
Theorem submission_uniqueness (now : Clock) (id student_email text : string)
    (file_path : option string) (group_members : option (list string)) (d : Disk) :
  ((∃ s, s ∈ get_assignment_submissions id d ∧ s_student_email s = student_email) →
     submit_assignment now id student_email text file_path d
       = (RMsg false "You have already submitted this assignment", d)
     ∧ submit_project now id student_email text file_path group_members d
       = (RMsg false "You have already submitted this project", d))
  ∧ ((∀ s, s ∈ get_assignment_submissions id d → s_student_email s ≠ student_email) →
     fst (submit_assignment now id student_email text file_path d)
       = RMsg true "Assignment submitted successfully"
     ∧ fst (submit_project now id student_email text file_path group_members d)
       = RMsg true "Project submitted successfully"
     ∧ (∃ s, s_student_email s = student_email
          ∧ get_assignment_submissions id
              (snd (submit_assignment now id student_email text file_path d))
            = get_assignment_submissions id d ++ [s])
     ∧ (∃ s, s_student_email s = student_email
          ∧ get_assignment_submissions id
              (snd (submit_project now id student_email text file_path group_members d))
            = get_assignment_submissions id d ++ [s])
     ∧ ∀ other, other ≠ id →
         get_submissions (snd (submit_assignment now id student_email text file_path d))
           !! other = get_submissions d !! other
         ∧ get_submissions
             (snd (submit_project now id student_email text file_path group_members d))
           !! other = get_submissions d !! other)
  ∧ (submission_count id student_email d ≤ 1 →
     submission_count id student_email
       (snd (submit_assignment now id student_email text file_path d)) = 1
     ∧ submission_count id student_email
         (snd (submit_project now id student_email text file_path group_members d)) = 1)
  ∧ ((∀ i e, submission_count i e d ≤ 1) →
     ∀ i e,
       submission_count i e (snd (submit_assignment now id student_email text file_path d))
         ≤ 1
       ∧ submission_count i e
           (snd (submit_project now id student_email text file_path group_members d)) ≤ 1).
Proof.
  pose proof (submit_assignment_cases now id student_email text file_path d) as Ha.
  pose proof (submit_project_cases now id student_email text file_path group_members d)
    as Hp.
  split; [|split; [|split]].
  - intros Hdup. apply has_submitted_true in Hdup.
    destruct Ha as [[_ ->]|[Hf _]]; [|congruence].
    destruct Hp as [[_ ->]|[Hf _]]; [done|congruence].
  - intros Hnone. apply has_submitted_false in Hnone.
    destruct Ha as [[Ht _]|(_ & sa & Hsa & ->)]; [congruence|].
    destruct Hp as [[Ht _]|(_ & sp & Hsp & ->)]; [congruence|]. simpl.
    split; [done|]. split; [done|].
    split; [exists sa; split; [done|] |split; [exists sp; split; [done|] |]].
    + unfold get_assignment_submissions at 1, get_submissions at 1. simpl.
      by rewrite lookup_insert_eq.
    + unfold get_assignment_submissions at 1, get_submissions at 1. simpl.
      by rewrite lookup_insert_eq.
    + intros other Hne. unfold get_submissions at 1 3. simpl.
      by rewrite !lookup_insert_ne.
  - intros Hle.
    assert (Hcount : has_submitted student_email (get_assignment_submissions id d) = true
                     → submission_count id student_email d = 1).
    { intros Ht. apply has_submitted_true in Ht.
      destruct (submission_count id student_email d) as [|[|n]] eqn:E; [|done|lia].
      unfold submission_count in E. rewrite count_zero_iff in E.
      destruct Ht as (s & Hin & Hs). by destruct (E s Hin). }
    pose proof (not_submitted_count id student_email d) as Hzero.
    split.
    + destruct Ha as [[Ht ->]|(Hf & sa & Hsa & ->)]; simpl; [by apply Hcount|].
      rewrite count_after_append, decide_True by done. rewrite (Hzero Hf). lia.
    + destruct Hp as [[Ht ->]|(Hf & sp & Hsp & ->)]; simpl; [by apply Hcount|].
      rewrite count_after_append, decide_True by done. rewrite (Hzero Hf). lia.
  - intros Hinv i e.
    pose proof (not_submitted_count id student_email d) as Hzero.
    split.
    + destruct Ha as [[Ht ->]|(Hf & sa & Hsa & ->)]; simpl; [apply (Hinv i e)|].
      rewrite count_after_append. case_decide as Hc; [|apply (Hinv i e)].
      destruct Hc as [Hi He]. rewrite Hsa in He. subst i e. rewrite (Hzero Hf). lia.
    + destruct Hp as [[Ht ->]|(Hf & sp & Hsp & ->)]; simpl; [apply (Hinv i e)|].
      rewrite count_after_append. case_decide as Hc; [|apply (Hinv i e)].
      destruct Hc as [Hi He]. rewrite Hsp in He. subst i e. rewrite (Hzero Hf). lia.
Qed.

Lemma submission_uniqueness_witness :
  submit_assignment clock1 "CS101_1" "student@x.edu" "again" None submitted_disk
    = (RMsg false "You have already submitted this assignment", submitted_disk)
  ∧ get_assignment_submissions "CS101_1" submitted_disk = [answer]
  ∧ submission_count "CS101_1" "student@x.edu"
      (snd (submit_assignment clock0 "CS101_1" "student@x.edu" "answer" None cs_disk)) = 1.
Proof.
  destruct (submission_uniqueness clock1 "CS101_1" "student@x.edu" "again" None None
              submitted_disk) as (Hdup & _ & _ & _).
  destruct (submission_uniqueness clock0 "CS101_1" "student@x.edu" "answer" None None
              cs_disk) as (_ & _ & Hone & _).
  destruct Hdup as [Hdup _].
  { exists answer. split; [|reflexivity]. vm_compute. left. }
  destruct Hone as [Hone _].
  { vm_compute. lia. }
  split; [exact Hdup|]. split; [reflexivity|exact Hone].
Defined.

(** ** Grading *)

Lemma no_entry_list_find (student_email : string) (l : list Submission) :
  (∀ s, s ∈ l → s_student_email s ≠ student_email) →
  list_find (λ s, s_student_email s = student_email) l = None.
Proof. intros Hall. apply list_find_None, Forall_forall. exact Hall. Qed.

(** C3, as the code has it.  When the submissions document holds no
    entry for the (assignment_id, student_email) pair, [grade_submission]
    fails and the data directory is unchanged, so no submission is
    created; the message is "Assignment not found" when the document has
    no list under [assignment_id], and "Submission not found" when it
    has one. *)
Theorem grade_submission_requires_submission (now : Clock)
    (assignment_id student_email : string) (grade : Z) (feedback : option string)
    (d : Disk) :
  (∀ s, s ∈ get_assignment_submissions assignment_id d →
        s_student_email s ≠ student_email) →
  grade_submission now assignment_id student_email grade feedback d
  = (RMsg false
       match get_submissions d !! assignment_id with
       | None => "Assignment not found"
       | Some _ => "Submission not found"
       end, d).
Proof.
  unfold get_assignment_submissions, grade_submission. intros Hnone.
  destruct (get_submissions d !! assignment_id) as [l|]; [|done].
  simpl in Hnone. by rewrite (no_entry_list_find _ _ Hnone).
Qed.

Lemma grade_submission_requires_submission_witness :
  grade_submission clock1 "CS101_1" "other@x.edu" 85 None submitted_disk
    = (RMsg false "Submission not found", submitted_disk)
  ∧ grade_submission clock1 "CS101_2" "student@x.edu" 85 None submitted_disk
    = (RMsg false "Assignment not found", submitted_disk).
Proof.
  split.
  - apply (grade_submission_requires_submission clock1 "CS101_1" "other@x.edu" 85 None
             submitted_disk).
    intros s Hs. vm_compute in Hs. apply list_elem_of_singleton in Hs. by subst s.
  - apply (grade_submission_requires_submission clock1 "CS101_2" "student@x.edu" 85 None
             submitted_disk).
    intros s Hs. vm_compute in Hs. by apply elem_of_nil in Hs.
Defined.

(** C3, as stated, fails: for an assignment without any submission the
    pair has no entry, and the message is "Assignment not found". *)
Lemma grade_submission_message_counterexample :
  get_assignment_submissions "CS101_1" cs_disk = []
  ∧ fst (grade_submission clock0 "CS101_1" "student@x.edu" 85 None cs_disk)
    = RMsg false "Assignment not found"
  ∧ fst (grade_submission clock0 "CS101_1" "student@x.edu" 85 None cs_disk)
    ≠ RMsg false "Submission not found".
Proof. split; [reflexivity|]. split; [reflexivity|]. vm_compute. discriminate. Qed.

(** ** Attendance *)

Lemma attendance_of_marked (now : Clock) (course_id date student_email status : string)
    (d : Disk) (c' dt' s' : string) :
  attendance_of c' dt' s' (snd (mark_attendance now course_id date student_email status d))
  = if decide (c' = course_id ∧ dt' = date ∧ s' = student_email)
    then Some {| m_status := status; m_marked_at := isoformat now |}
    else attendance_of c' dt' s' d.
Proof.
  unfold attendance_of, mark_attendance, get_attendance. simpl.
  destruct (decide (c' = course_id)) as [->|Hc].
  2: { rewrite lookup_insert_ne by done. rewrite decide_False by tauto. done. }
  rewrite lookup_insert_eq. simpl.
  destruct (decide (dt' = date)) as [->|Hd].
  2: { rewrite lookup_insert_ne by done. rewrite decide_False by tauto.
       destruct (attendance_json d !! course_id); done. }
  rewrite lookup_insert_eq. simpl.
  destruct (decide (s' = student_email)) as [->|Hs].
  - rewrite lookup_insert_eq. by rewrite decide_True.
  - rewrite lookup_insert_ne by done. rewrite decide_False by tauto.
    destruct (attendance_json d !! course_id) as [dates|]; simpl; [|done].
    destruct (dates !! date); done.
Qed.

(** C6. [mark_attendance] always succeeds.  Marking a (course, date,
    student) triple twice leaves for the triple the record of the second
    call; the data directory is the one the second call alone would have
    produced, so the first mark leaves no trace; every other triple
    reads as before the two calls. *)
Theorem attendance_last_write_wins (now1 now2 : Clock)
    (course_id date student_email status1 status2 : string) (d : Disk) :
  fst (mark_attendance now1 course_id date student_email status1 d)
    = RMsg true "Attendance marked successfully"
  ∧ fst (mark_attendance now2 course_id date student_email status2
           (snd (mark_attendance now1 course_id date student_email status1 d)))
    = RMsg true "Attendance marked successfully"
  ∧ attendance_of course_id date student_email
      (snd (mark_attendance now2 course_id date student_email status2
              (snd (mark_attendance now1 course_id date student_email status1 d))))
    = Some {| m_status := status2; m_marked_at := isoformat now2 |}
  ∧ snd (mark_attendance now2 course_id date student_email status2
           (snd (mark_attendance now1 course_id date student_email status1 d)))
    = snd (mark_attendance now2 course_id date student_email status2 d)
  ∧ ∀ c' dt' s', ¬ (c' = course_id ∧ dt' = date ∧ s' = student_email) →
      attendance_of c' dt' s'
        (snd (mark_attendance now2 course_id date student_email status2
                (snd (mark_attendance now1 course_id date student_email status1 d))))
      = attendance_of c' dt' s' d.
Proof.
  split; [done|]. split; [done|]. split; [|split].
  - rewrite attendance_of_marked. by rewrite decide_True.
  - unfold mark_attendance, get_attendance, save_attendance. simpl. f_equal.
    rewrite !lookup_insert_eq. simpl. rewrite !lookup_insert_eq. simpl.
    rewrite !insert_insert_eq. reflexivity.
  - intros c' dt' s' Hne. rewrite !attendance_of_marked.
    rewrite !decide_False by exact Hne. reflexivity.
Qed.

Lemma attendance_last_write_wins_witness :
  attendance_of "CS101" "2024-01-10" "student@x.edu"
    (snd (mark_attendance clock1 "CS101" "2024-01-10" "student@x.edu" "Absent"
            (snd (mark_attendance clock0 "CS101" "2024-01-10" "student@x.edu" "Present"
                    cs_disk))))
  = Some {| m_status := "Absent"; m_marked_at := "2024-01-11T10:30:00" |}
  ∧ attendance_of "CS101" "2024-01-10" "other@x.edu"
      (snd (mark_attendance clock1 "CS101" "2024-01-10" "student@x.edu" "Absent"
              (snd (mark_attendance clock0 "CS101" "2024-01-10" "student@x.edu" "Present"
                      cs_disk))))
    = None.
Proof.
  destruct (attendance_last_write_wins clock0 clock1 "CS101" "2024-01-10" "student@x.edu"
              "Present" "Absent" cs_disk) as (_ & _ & Hlast & _ & Hother).
  split; [exact Hlast|].
  rewrite (Hother "CS101" "2024-01-10" "other@x.edu"); [reflexivity|].
  intros (_ & _ & Hs). discriminate Hs.
Defined.

(** ** Authentication *)

(** C7. [authenticate] returns a user record exactly when the users
    document has an entry under the given email, compared as a string,
    whose stored digest is the hash of the given password, and then it
    returns that entry; in every other case it returns [None].  The
    function is total: it never raises. *)
Theorem authenticate_iff (hash_password : string → string) (email password : string)
    (d : Disk) :
  (∀ u, authenticate hash_password email password d = Some u
        ↔ get_users d !! email = Some u ∧ u_password u = hash_password password)
  ∧ (authenticate hash_password email password d = None
     ↔ ¬ ∃ u, get_users d !! email = Some u ∧ u_password u = hash_password password).
Proof.
  unfold authenticate. destruct (get_users d !! email) as [stored|] eqn:Hlookup.
  - destruct (String.eqb_spec (u_password stored) (hash_password password)) as [Heq|Hne].
    + split.
      * intros u. split; [intros [= <-]; done | intros [[= <-] _]; done].
      * split; [done|]. intros Hno. exfalso. apply Hno. by exists stored.
    + split.
      * intros u. split; [done|]. intros [[= <-] Hpw]. done.
      * split; [|done]. intros _ (u & [= <-] & Hpw). done.
  - split.
    + intros u. split; [done | intros [? _]; done].
    + split; [|done]. intros _ (u & ? & _). done.
Qed.

Lemma authenticate_iff_witness :
  authenticate tagged_digest "admin@college.edu" "admin123" admin_disk = Some admin_user
  ∧ authenticate tagged_digest "Admin@college.edu" "admin123" admin_disk = None
  ∧ authenticate tagged_digest "admin@college.edu" "admin124" admin_disk = None.
Proof.
  split; [|split].
  - apply (authenticate_iff tagged_digest "admin@college.edu" "admin123" admin_disk).
    split; reflexivity.
  - apply (authenticate_iff tagged_digest "Admin@college.edu" "admin123" admin_disk).
    intros (u & Hu & _). vm_compute in Hu. discriminate Hu.
  - apply (authenticate_iff tagged_digest "admin@college.edu" "admin124" admin_disk).
    intros (u & Hu & Hpw). vm_compute in Hu. injection Hu as <-.
    vm_compute in Hpw. discriminate Hpw.
Defined.

(** ** Exams *)

(** C9. [delete_exam] on an existing exam returns [True], removes the
    exam from the exams document and removes the entry of [exam_id]
    from the exam-results document, whose other entries are unchanged,
    as is every other document; on an unknown exam it returns [False]
    and the data directory is unchanged. *)
Theorem delete_exam_cascades (exam_id : string) (d : Disk) :
  (is_Some (get_exams d !! exam_id) →
     fst (delete_exam exam_id d) = RBool true
     ∧ snd (delete_exam exam_id d)
       = save_exam_results (delete exam_id (get_exam_results d))
           (save_exams (delete exam_id (get_exams d)) d)
     ∧ get_exams (snd (delete_exam exam_id d)) !! exam_id = None
     ∧ get_exam_results (snd (delete_exam exam_id d)) !! exam_id = None
     ∧ ∀ other, other ≠ exam_id →
         get_exam_results (snd (delete_exam exam_id d)) !! other
           = get_exam_results d !! other
         ∧ get_exams (snd (delete_exam exam_id d)) !! other = get_exams d !! other)
  ∧ (get_exams d !! exam_id = None → delete_exam exam_id d = (RBool false, d)).
Proof.
  unfold delete_exam. split.
  - intros [e He]. rewrite He.
    assert (Hd : snd (delete_exam_results exam_id (save_exams (delete exam_id (get_exams d)) d))
                 = save_exam_results (delete exam_id (get_exam_results d))
                     (save_exams (delete exam_id (get_exams d)) d)).
    { unfold delete_exam_results, get_exam_results. simpl.
      destruct (exam_results_json d !! exam_id) eqn:Hr; simpl; [done|].
      rewrite (delete_id (exam_results_json d)) by done. by destruct d. }
    destruct (delete_exam_results exam_id (save_exams (delete exam_id (get_exams d)) d))
      as [r d'] eqn:Hrun. simpl in Hd. subst d'. simpl.
    split; [done|]. split; [done|].
    unfold get_exams, get_exam_results. simpl.
    split; [apply lookup_delete_eq|]. split; [apply lookup_delete_eq|].
    intros other Hne. by rewrite !lookup_delete_ne.
  - intros ->. done.
Qed.

Lemma delete_exam_cascades_witness :
  fst (delete_exam "exam_1_20240110090000" exam_disk) = RBool true
  ∧ get_exam_results (snd (delete_exam "exam_1_20240110090000" exam_disk))
      !! "exam_1_20240110090000" = None
  ∧ is_Some (get_exam_results (snd (delete_exam "exam_1_20240110090000" exam_disk))
               !! "exam_2_20240110090000")
  ∧ delete_exam "exam_3_20240110090000" exam_disk = (RBool false, exam_disk).
Proof.
  destruct (delete_exam_cascades "exam_1_20240110090000" exam_disk) as [Hrun _].
  destruct (delete_exam_cascades "exam_3_20240110090000" exam_disk) as [_ Hmiss].
  destruct Hrun as (Hr & _ & _ & Hgone & Hother).
  { eexists. reflexivity. }
  split; [exact Hr|]. split; [exact Hgone|]. split; [|apply Hmiss; reflexivity].
  destruct (Hother "exam_2_20240110090000") as [-> _]; [discriminate|].
  eexists. reflexivity.
Defined.

(** ** Announcement targeting *)

Lemma truthy_list_false (o : option (list string)) :
  truthy_list o = false ↔ targets o = [].
Proof. destruct o as [[|x l]|]; simpl; split; done. Qed.

Lemma matches_target_given (viewer : option string) (o : option (list string)) :
  matches_target viewer o = true ↔ given_in viewer o.
Proof.
  unfold matches_target, given_in. destruct viewer as [v|]; simpl.
  - destruct (String.eqb_spec v "") as [->|Hv]; simpl.
    + split; [done|]. intros (v & [= <-] & Hne & _). done.
    + destruct o as [[|x l]|]; simpl.
      * split; [done|]. intros (w & _ & _ & Hin). by apply elem_of_nil in Hin.
      * rewrite bool_decide_eq_true. split.
        -- intros Hin. exists v. done.
        -- intros (w & [= <-] & _ & Hin). done.
      * split; [done|]. intros (w & _ & _ & Hin). by apply elem_of_nil in Hin.
  - split; [done|]. intros (v & ? & _). done.
Qed.

Lemma visible_to_audience (role department email : option string) (a : Announcement) :
  visible_to role department email a = true ↔ audience role department email a.
Proof.
  unfold visible_to, audience, broadcast.
  rewrite !orb_true_iff, !andb_true_iff, !negb_true_iff, !truthy_list_false,
    !matches_target_given.
  tauto.
Qed.

Lemma filter_announcements_acc (role department email : option string)
    (announcements filtered : list Announcement) :
  filter_announcements role department email announcements filtered
  = filtered ++ filter (λ a, visible_to role department email a = true) announcements.
Proof.
  revert filtered. induction announcements as [|a rest IH]; intros filtered; simpl.
  - by rewrite app_nil_r.
  - rewrite filter_cons. destruct (visible_to role department email a) eqn:Hv.
    + rewrite decide_True by done. rewrite IH. by rewrite <- app_assoc.
    + rewrite decide_False by done. apply IH.
Qed.

(** C2, as the code has it.  [get_filtered_announcements] returns, in
    store order, exactly the stored announcements that are broadcast
    (no target roles, departments or emails set) or that list the role,
    the department or the email of the viewer, where a viewer attribute
    counts only when it is given and is not the empty string: an OR
    over the three target dimensions. *)
Theorem filtered_announcements_audience (role department email : option string)
    (d : Disk) :
  get_filtered_announcements role department email d
    = filter (λ a, visible_to role department email a = true) (get_announcements d)
  ∧ (∀ a, visible_to role department email a = true ↔ audience role department email a)
  ∧ (∀ a, a ∈ get_filtered_announcements role department email d
          ↔ a ∈ get_announcements d ∧ audience role department email a).
Proof.
  assert (Heq : get_filtered_announcements role department email d
                = filter (λ a, visible_to role department email a = true)
                    (get_announcements d)).
  { unfold get_filtered_announcements. by rewrite filter_announcements_acc. }
  split; [exact Heq|]. split; [intros a; apply visible_to_audience|].
  intros a. rewrite Heq, list_elem_of_filter, visible_to_audience. tauto.
Qed.

Lemma filtered_announcements_audience_witness :
  get_filtered_announcements (Some "teacher") None None notice_disk
    = [teachers_notice; general_notice]
  ∧ get_filtered_announcements (Some "student") None (Some "student@x.edu") notice_disk
    = [general_notice]
  ∧ teachers_notice ∈ get_filtered_announcements (Some "teacher") None None notice_disk.
Proof.
  split; [reflexivity|]. split; [reflexivity|].
  apply (filtered_announcements_audience (Some "teacher") None None notice_disk).
  split; [left|].
  right. left. exists "teacher". split; [reflexivity|]. split; [discriminate|left].
Defined.

(** C2, as stated, fails when the supplied attribute is the empty
    string: the announcement lists the department [""], the viewer (a
    student whose department was left blank) supplies the department
    [""], and nothing is returned. *)
Lemma blank_department_counterexample :
  blank_department_notice ∈ get_announcements blank_disk
  ∧ audience_as_specified (Some "student") (Some "") None blank_department_notice
  ∧ get_filtered_announcements (Some "student") (Some "") None blank_disk = [].
Proof.
  split; [left|]. split; [|reflexivity].
  right. right. left. exists "". split; [reflexivity|left].
Qed.

(** ** Certificates *)

Lemma dict_get_set_ne (key key' : string) (value : json) (members : list (string * json)) :
  key ≠ key' → dict_get key (dict_set key' value members) = dict_get key members.
Proof.
  intros Hne. induction members as [|[k v] rest IH]; simpl.
  - destruct (String.eqb_spec key' key); [congruence|done].
  - destruct (String.eqb_spec k key') as [->|Hk]; simpl.
    + destruct (String.eqb_spec key' key); [congruence|done].
    + destruct (String.eqb_spec k key); [done|apply IH].
Qed.

Lemma collect_certificates_named (student_email : string) (items : list (string * json))
    (acc l : list json) :
  Forall (names_student_record student_email) acc →
  collect_certificates student_email items acc = Returns l →
  Forall (names_student_record student_email) l.
Proof.
  revert acc. induction items as [|[cert_id cert] rest IH]; intros acc Hacc; simpl.
  - by intros [= <-].
  - destruct cert as [| | | | |members]; try done.
    destruct (names_student student_email members) eqn:Hn; [|by apply IH].
    apply IH. apply Forall_app. split; [done|]. apply Forall_singleton.
    eexists. split; [reflexivity|]. unfold names_student.
    rewrite dict_get_set_ne by discriminate. exact Hn.
Qed.

(** A record written by [submit_certificate] or [verify_certificate]
    has no key "student_email". *)
Lemma json_of_certificate_unnamed (student_email : string) (c : Certificate) :
  ¬ names_student_record student_email (json_of_certificate c).
Proof.
  intros (members & Heq & Hn). unfold json_of_certificate in Heq.
  injection Heq as <-. unfold names_student in Hn.
  destruct (ce_verified_at c); simpl in Hn; discriminate Hn.
Qed.

(** The query raises on a non-empty document of the shape that
    [save_data(CERTIFICATES_FILE, ...)] writes. *)
Lemma student_certificates_of_store (student_email : string)
    (certificates : gmap string (list Certificate)) :
  certificates ≠ ∅ →
  student_certificates_of student_email (json_of_certificates certificates)
  = Raises "AttributeError".
Proof.
  intros Hne. unfold student_certificates_of, json_of_certificates.
  destruct (map_to_list ((λ l, JArr (json_of_certificate <$> l)) <$> certificates))
    as [|[k v] rest] eqn:Hl.
  - apply map_to_list_empty_iff, fmap_empty_iff in Hl. done.
  - assert (Hin : (k, v) ∈ map_to_list
                    ((λ l, JArr (json_of_certificate <$> l)) <$> certificates))
      by (rewrite Hl; left).
    apply elem_of_map_to_list in Hin. rewrite lookup_fmap in Hin.
    destruct (certificates !! k); simpl in Hin; [|done].
    injection Hin as <-. done.
Qed.

(** C8. After [submit_certificate] for a student, the certificate is in
    the certificates document, and [get_student_certificates] for the
    same student gives what it gave before the submit, because it reads
    the relative file and not the certificates document; no record it
    returns is a record of the certificates document; and run on the
    certificates document itself, the query raises. *)
Theorem certificate_round_trip (now : Clock)
    (student_email title issuing_organization issue_date : string)
    (file_path : option string) (d : Disk) :
  fst (submit_certificate now student_email title issuing_organization issue_date
         file_path d) = RMsg true "Certificate submitted successfully"
  ∧ (∃ c, ce_title c = title
       ∧ c ∈ default [] (get_certificates
                           (snd (submit_certificate now student_email title
                                   issuing_organization issue_date file_path d))
                         !! student_email))
  ∧ fst (get_student_certificates student_email
           (snd (submit_certificate now student_email title issuing_organization
                   issue_date file_path d)))
    = fst (get_student_certificates student_email d)
  ∧ (∀ l c owner,
       fst (get_student_certificates student_email
              (snd (submit_certificate now student_email title issuing_organization
                      issue_date file_path d))) = Returns l →
       c ∈ default [] (get_certificates
                         (snd (submit_certificate now student_email title
                                 issuing_organization issue_date file_path d))
                       !! owner) →
       json_of_certificate c ∉ l)
  ∧ student_certificates_of student_email
      (json_of_certificates
         (get_certificates
            (snd (submit_certificate now student_email title issuing_organization
                    issue_date file_path d))))
    = Raises "AttributeError".
Proof.
  split; [done|]. split; [|split; [|split]].
  - eexists. split; [|unfold submit_certificate, get_certificates; simpl;
                      rewrite lookup_insert_eq; simpl;
                      apply elem_of_app; right; left].
    reflexivity.
  - unfold get_student_certificates, load_cwd_certificates, submit_certificate. simpl.
    destruct (cwd_certificates_json d); done.
  - intros l c owner Hl _ Hin.
    unfold get_student_certificates in Hl.
    destruct (load_cwd_certificates _) as [doc d'] eqn:Hload. simpl in Hl.
    unfold student_certificates_of in Hl. destruct doc as [| | | | |items]; try done.
    eapply collect_certificates_named in Hl; [|constructor].
    rewrite Forall_forall in Hl.
    by apply (json_of_certificate_unnamed student_email c), Hl.
  - apply student_certificates_of_store.
    unfold submit_certificate, get_certificates. simpl. apply insert_non_empty.
Qed.

Lemma certificate_round_trip_witness :
  fst (get_student_certificates "student@x.edu"
         (snd (submit_certificate clock0 "student@x.edu" "Python" "Coursera" "2024-01-05"
                 None cs_disk)))
  = Returns []
  ∧ student_certificates_of "student@x.edu"
      (json_of_certificates
         (get_certificates
            (snd (submit_certificate clock0 "student@x.edu" "Python" "Coursera"
                    "2024-01-05" None cs_disk))))
    = Raises "AttributeError".
Proof.
  destruct (certificate_round_trip clock0 "student@x.edu" "Python" "Coursera"
              "2024-01-05" None cs_disk) as (_ & _ & Hsame & _ & Hraise).
  split; [|exact Hraise]. rewrite Hsame. reflexivity.
Defined.

(** ** Result shapes *)

(** One step of a case analysis that follows the branches of a
    repository function. *)
Ltac branch :=
  match goal with
  | |- context [let '(_, _) := ?p in _] => destruct p eqn:?
  | |- context [match ?x with _ => _ end] => destruct x eqn:?
  | |- context [if ?b then _ else _] => destruct b eqn:?
  end.

(** C5, as the code has it.  Every mutating function of the user,
    course, department, attendance, assignment, submission, project,
    certificate and announcement repositories returns (success, message),
    with the generated id as a third component for [create_assignment]
    and [create_project].  The subject, exam and exam-result functions
    do not: [add_subject] and [add_exam] return the bare generated id,
    and their update and delete functions a bare boolean. *)
Theorem result_shapes (hash_password : string → string) (now : Clock) (c : call)
    (d : Disk) :
  shape_of (fst (run hash_password now c d)) = declared_shape c
  ∧ uniform_shape (fst (run hash_password now c d)) = message_repository (repository_of c).
Proof.
  destruct c; simpl;
    unfold create_user, update_user, delete_user, add_course, update_course,
      delete_course, add_department, update_department, delete_department,
      mark_attendance, remove_student_from_course, create_assignment,
      update_assignment, delete_assignment, submit_assignment, grade_submission,
      create_project, submit_project, submit_certificate, verify_certificate,
      create_announcement, delete_announcement, add_subject, update_subject,
      delete_subject, add_exam, update_exam, delete_exam, add_exam_result,
      delete_exam_result, delete_exam_results;
    repeat branch; simpl; split; reflexivity.
Qed.

(** C5, as stated, fails for the exam and subject repositories:
    [add_exam] returns the bare id, [delete_exam] and [update_subject]
    a bare boolean. *)
Lemma exam_shape_counterexample :
  fst (add_exam clock0 "Mid Sem" "Mid Sem 1" 1 "2024-02-01" 100 empty_disk)
    = RId "exam_1_20240110090000"
  ∧ uniform_shape (fst (add_exam clock0 "Mid Sem" "Mid Sem 1" 1 "2024-02-01" 100
                          empty_disk)) = false
  ∧ fst (delete_exam "exam_1_20240110090000" exam_disk) = RBool true
  ∧ fst (update_subject "subject_1" (Some "Algebra") None None empty_disk) = RBool false
  ∧ fst (add_subject clock0 "Algebra" 1 None empty_disk)
    = RId "subject_1_20240110090000".
Proof. repeat split; reflexivity. Qed.

(** ** Failure atomicity *)

(** C10, as the code has it.  A call that reports failure has saved
    nothing.  For every function but the three of the department
    repository the data directory is unchanged; for those three it is
    unchanged when [departments.json] exists, and otherwise the only
    change is the default departments document that [get_departments]
    writes before the lookup. *)
Theorem failed_call_saves_nothing (hash_password : string → string) (now : Clock)
    (c : call) (d : Disk) :
  reports_failure (fst (run hash_password now c d)) = true →
  snd (run hash_password now c d)
    = match repository_of c with
      | Departments => snd (get_departments now d)
      | _ => d
      end
  ∧ (is_Some (departments_json d) → snd (run hash_password now c d) = d).
Proof.
  assert (Hdep : ∀ r, is_Some (departments_json d) → r = snd (get_departments now d) → r = d).
  { intros r Hs ->. by apply get_departments_existing. }
  destruct c; simpl;
    unfold create_user, update_user, delete_user, add_course, update_course,
      delete_course, add_department, update_department, delete_department,
      mark_attendance, remove_student_from_course, create_assignment,
      update_assignment, delete_assignment, submit_assignment, grade_submission,
      create_project, submit_project, submit_certificate, verify_certificate,
      create_announcement, delete_announcement, add_subject, update_subject,
      delete_subject, add_exam, update_exam, delete_exam, add_exam_result,
      delete_exam_result, delete_exam_results;
    repeat branch; simpl; intros Hfail; try discriminate Hfail;
    try (split; [reflexivity|intros _; reflexivity]);
    (split; [reflexivity|intros Hs; by apply Hdep]).
Qed.

Lemma failed_call_saves_nothing_witness :
  snd (run tagged_digest clock1 (DeleteCourse "MA101") cs_disk) = cs_disk
  ∧ snd (run tagged_digest clock1 (CreateUser "admin@college.edu" "pw" "admin"
                                     {| uf_name := None; uf_department := None;
                                        uf_student_id := None; uf_year := None;
                                        uf_semester := None; uf_section := None |})
           admin_disk) = admin_disk
  ∧ snd (run tagged_digest clock1 (DeleteDepartment "CS") cs_disk) = cs_disk.
Proof.
  split; [|split].
  - refine (proj1 (failed_call_saves_nothing tagged_digest clock1 (DeleteCourse "MA101")
                     cs_disk _)).
    reflexivity.
  - refine (proj1 (failed_call_saves_nothing tagged_digest clock1
                     (CreateUser "admin@college.edu" "pw" "admin" _) admin_disk _)).
    reflexivity.
  - refine (proj2 (failed_call_saves_nothing tagged_digest clock1 (DeleteDepartment "CS")
                     cs_disk _) _).
    + reflexivity.
    + eexists. reflexivity.
Defined.

(** C10, as stated, fails on a data directory without
    [departments.json]: the failed [delete_department] leaves the
    default departments document behind. *)
Lemma failed_delete_department_counterexample :
  departments_json empty_disk = None
  ∧ fst (run tagged_digest clock0 (DeleteDepartment "ZZ") empty_disk)
    = RMsg false "Department not found"
  ∧ departments_json (snd (run tagged_digest clock0 (DeleteDepartment "ZZ") empty_disk))
    = Some (default_departments clock0)
  ∧ snd (run tagged_digest clock0 (DeleteDepartment "ZZ") empty_disk) ≠ empty_disk.
Proof.
  split; [reflexivity|]. split; [reflexivity|]. split; [reflexivity|].
  intros Heq. apply (f_equal departments_json) in Heq. discriminate Heq.
Qed.

(** * Further properties *)

(** ** Accounts *)




(** X2. The password rule of [update_user]: when the keyword arguments
    carry no password, or the empty one, the stored digest is kept, so
    exactly the passwords that logged in before still do; when they
    carry a non-empty password, that password logs in afterwards.  The
    creation time is never changed. *)
Theorem update_user_password_rule (hash_password : string → string) (email : string)
    (kwargs : UserPatch) (u : User) (d : Disk) :
  get_users d !! email = Some u →
  fst (update_user hash_password email kwargs d) = RMsg true "User updated successfully"
  ∧ (∃ u', get_users (snd (update_user hash_password email kwargs d)) !! email = Some u'
           ∧ u_created_at u' = u_created_at u
           ∧ (truthy_str (up_password kwargs) = false → u_password u' = u_password u))
  ∧ (truthy_str (up_password kwargs) = false →
     ∀ password,
       is_Some (authenticate hash_password email password
                  (snd (update_user hash_password email kwargs d)))
       ↔ is_Some (authenticate hash_password email password d))
  ∧ (∀ new, up_password kwargs = Some new → new ≠ "" →
       is_Some (authenticate hash_password email new
                  (snd (update_user hash_password email kwargs d)))).
Proof.
  intros Hu. unfold update_user. rewrite Hu. simpl.
  split; [done|]. split; [|split].
  - eexists. unfold get_users. simpl. rewrite lookup_insert_eq.
    split; [done|]. split; [done|]. simpl. by intros ->.
  - intros Hkeep password. unfold authenticate, get_users in *. simpl.
    rewrite lookup_insert_eq, Hu. simpl. rewrite Hkeep.
    destruct (String.eqb (u_password u) (hash_password password)); done.
  - intros new Hnew Hne. unfold authenticate, get_users. simpl.
    rewrite lookup_insert_eq. simpl. rewrite Hnew. simpl.
    destruct (String.eqb_spec new "") as [->|_]; [done|]. simpl.
    rewrite String.eqb_refl. by eexists.
Qed.

Lemma update_user_password_rule_witness :
  is_Some (authenticate tagged_digest "admin@college.edu" "admin123"
             (snd (update_user tagged_digest "admin@college.edu"
                     {| up_password := Some ""; up_role := None; up_fields := teacher_fields |}
                     admin_disk)))
  ∧ is_Some (authenticate tagged_digest "admin@college.edu" "s3cret"
               (snd (update_user tagged_digest "admin@college.edu"
                       {| up_password := Some "s3cret"; up_role := None;
                          up_fields := no_fields |} admin_disk))).
Proof.
  split.
  - refine (proj2 (proj1 (proj2 (proj2 (update_user_password_rule tagged_digest
             "admin@college.edu"
             {| up_password := Some ""; up_role := None; up_fields := teacher_fields |}
             admin_user admin_disk _))) _ "admin123") _); [reflexivity|reflexivity|].
    eexists. reflexivity.
  - refine (proj2 (proj2 (proj2 (update_user_password_rule tagged_digest
             "admin@college.edu"
             {| up_password := Some "s3cret"; up_role := None; up_fields := no_fields |}
             admin_user admin_disk _))) "s3cret" _ _); [reflexivity|reflexivity|discriminate].
Defined.

(** X3. After [delete_user] of an existing account no password logs it
    in, [get_user_by_email] finds nothing, and every other account reads
    and logs in as before. *)
Theorem delete_user_revokes_login (hash_password : string → string) (email : string)
    (u : User) (d : Disk) :
  get_users d !! email = Some u →
  fst (delete_user email d) = RMsg true "User deleted successfully"
  ∧ get_user_by_email email (snd (delete_user email d)) = None
  ∧ (∀ password,
       authenticate hash_password email password (snd (delete_user email d)) = None)
  ∧ ∀ other password, other ≠ email →
      get_user_by_email other (snd (delete_user email d)) = get_user_by_email other d
      ∧ authenticate hash_password other password (snd (delete_user email d))
        = authenticate hash_password other password d.
Proof.
  intros Hu. unfold delete_user. rewrite Hu. simpl.
  split; [done|]. unfold get_user_by_email, authenticate, get_users. simpl.
  split; [apply lookup_delete_eq|]. split.
  - intros password. by rewrite lookup_delete_eq.
  - intros other password Hne. by rewrite !lookup_delete_ne.
Qed.

Lemma delete_user_revokes_login_witness :
  authenticate tagged_digest "admin@college.edu" "admin123"
    (snd (delete_user "admin@college.edu" admin_disk)) = None.
Proof.
  refine (proj1 (proj2 (proj2 (delete_user_revokes_login tagged_digest
            "admin@college.edu" admin_user admin_disk _))) "admin123").
  reflexivity.
Defined.

(** ** Courses *)

(** X4. [get_teacher_courses] holds exactly the courses whose
    [teacher_email] is the given one.  A course added under a free id
    shows up for its teacher; a deleted course shows up for nobody; and
    deleting a course just added restores the data directory. *)
Theorem teacher_courses_follow_courses (now : Clock) (course_id course_name : string)
    (department : option string) (teacher_email description : string) (credits : Z)
    (d : Disk) :
  (∀ t id c, get_teacher_courses t d !! id = Some c
             ↔ get_courses d !! id = Some c ∧ c_teacher_email c = t)
  ∧ (get_courses d !! course_id = None →
       (∃ c, get_teacher_courses teacher_email
               (snd (add_course now course_id course_name department teacher_email
                       description credits d)) !! course_id = Some c
             ∧ c_course_name c = course_name ∧ c_department c = department)
       ∧ snd (delete_course course_id
                (snd (add_course now course_id course_name department teacher_email
                        description credits d))) = d)
  ∧ ∀ t, get_teacher_courses t (snd (delete_course course_id d)) !! course_id = None.
Proof.
  split; [|split].
  - intros t id c. unfold get_teacher_courses. by rewrite map_lookup_filter_Some.
  - intros Hfree. unfold add_course. rewrite Hfree. simpl. split.
    + eexists. unfold get_teacher_courses. rewrite map_lookup_filter_Some.
      unfold get_courses. simpl. rewrite lookup_insert_eq. done.
    + unfold delete_course, get_courses. simpl. rewrite lookup_insert_eq. simpl.
      unfold get_courses in Hfree. rewrite delete_insert_eq, delete_id by done.
      by destruct d.
  - intros t. unfold get_teacher_courses. apply map_lookup_filter_None. left.
    unfold delete_course, get_courses.
    destruct (courses_json d !! course_id) eqn:E; simpl; [apply lookup_delete_eq|done].
Qed.

Lemma teacher_courses_follow_courses_witness :
  get_teacher_courses "teacher@x.edu" cs_disk !! "CS101" = Some cs101
  ∧ get_teacher_courses "teacher@x.edu" (snd (delete_course "CS101" cs_disk)) = ∅
  ∧ snd (delete_course "MA101"
           (snd (add_course clock0 "MA101" "Calculus" (Some "MATH") "teacher@x.edu" "" 4
                   cs_disk))) = cs_disk.
Proof.
  destruct (teacher_courses_follow_courses clock0 "MA101" "Calculus" (Some "MATH")
              "teacher@x.edu" "" 4 cs_disk) as (Hchar & Hadd & _).
  split; [|split].
  - apply Hchar. split; reflexivity.
  - reflexivity.
  - apply Hadd. reflexivity.
Defined.

(** ** Numbered ids *)

Lemma number_inj (prefix : string) (n m : nat) :
  prefix +:+ pretty n = prefix +:+ pretty m → n = m.
Proof. intros H. apply String.app_inj in H. by apply pretty_nat_inj in H. Qed.

Lemma assignment_number_inj (course_id : string) : Inj (=) (=) (assignment_number course_id).
Proof.
  intros n m H. unfold assignment_number in H.
  apply String.app_inj in H. by apply number_inj in H.
Qed.

Lemma project_number_inj (course_id : string) : Inj (=) (=) (project_number course_id).
Proof.
  intros n m H. unfold project_number in H.
  apply String.app_inj in H. by apply number_inj in H.
Qed.

Lemma certificate_number_inj (student_email : string) :
  Inj (=) (=) (certificate_number student_email).
Proof.
  intros n m H. unfold certificate_number in H.
  apply String.app_inj in H. by apply number_inj in H.
Qed.

Section numbered.
Context {A : Type} (id_of : A → string) (number : nat → string).
Hypothesis number_is_inj : Inj (=) (=) number.

Lemma numbered_nil : numbered id_of number [].
Proof. intros i x Hl. by rewrite lookup_nil in Hl. Qed.

Lemma numbered_snoc (l : list A) (x : A) :
  numbered id_of number l → id_of x = number (S (length l)) →
  numbered id_of number (l ++ [x]).
Proof.
  intros Hn Hx i y Hl. apply lookup_app_Some in Hl as [Hl|[Hge Hl]]; [by apply Hn|].
  apply list_lookup_singleton_Some in Hl as [Hi ->].
  replace i with (length l) by lia. done.
Qed.

Lemma numbered_next_fresh (l : list A) :
  numbered id_of number l → number (S (length l)) ∉ id_of <$> l.
Proof.
  intros Hn Hin. apply list_elem_of_fmap in Hin as (x & Hx & Hin).
  apply list_elem_of_lookup in Hin as [i Hi].
  pose proof (lookup_lt_Some _ _ _ Hi) as Hlt.
  rewrite (Hn i x Hi) in Hx. apply number_is_inj in Hx. lia.
Qed.

Lemma numbered_NoDup (l : list A) : numbered id_of number l → NoDup (id_of <$> l).
Proof.
  intros Hn. apply NoDup_alt. intros i j s Hi Hj.
  rewrite list_lookup_fmap in Hi, Hj.
  destruct (l !! i) as [x|] eqn:Hx; [|done]. destruct (l !! j) as [y|] eqn:Hy; [|done].
  simpl in *. injection Hi as Hi. injection Hj as Hj.
  rewrite (Hn i x Hx) in Hi. rewrite (Hn j y Hy) in Hj.
  assert (S i = S j) by (apply number_is_inj; congruence). lia.
Qed.

(** In a numbered list the scan for an id stops at the entry of that
    number. *)
Lemma numbered_list_find (l : list A) (i : nat) (x : A) :
  numbered id_of number l → l !! i = Some x →
  list_find (λ y, id_of y = id_of x) l = Some (i, x).
Proof.
  intros Hn Hi. apply list_find_Some. split; [done|]. split; [done|].
  intros j y Hj Hlt Heq. rewrite (Hn j y Hj), (Hn i x Hi) in Heq.
  apply number_is_inj in Heq. lia.
Qed.
End numbered.

(** ** Assignments *)

(** X5. While the assignments of a course are numbered 1, 2, ... in
    list order, [create_assignment] appends an assignment with the next
    number: the returned id is new to the course, the list stays
    numbered, and no two assignments of the course share an id. *)
Theorem create_assignment_numbering (now : Clock)
    (course_id title description due_date : string) (max_points : Z) (d : Disk) :
  numbered a_assignment_id (assignment_number course_id) (get_course_assignments course_id d) →
  ∃ a,
    create_assignment now course_id title description due_date max_points d
      = (RMsgId true "Assignment created successfully" (a_assignment_id a),
         save_assignments
           (<[course_id := (get_course_assignments course_id d ++ [a])]> (get_assignments d)) d)
    ∧ a_title a = title ∧ a_due_date a = due_date ∧ a_max_points a = max_points
    ∧ (a_assignment_id a ∉ assignment_ids (get_course_assignments course_id d))
    ∧ numbered a_assignment_id (assignment_number course_id)
        (get_course_assignments course_id
           (snd (create_assignment now course_id title description due_date max_points d)))
    ∧ NoDup (assignment_ids
               (get_course_assignments course_id
                  (snd (create_assignment now course_id title description due_date
                          max_points d)))).
Proof.
  intros Hn.
  exists {| a_assignment_id :=
              assignment_number course_id (S (length (get_course_assignments course_id d)));
            a_title := title; a_description := description;
            a_due_date := due_date; a_max_points := max_points;
            a_created_at := isoformat now |}.
  split; [reflexivity|]. simpl.
  split; [done|]. split; [done|]. split; [done|].
  assert (Hnew : numbered a_assignment_id (assignment_number course_id)
                   ((get_course_assignments course_id d) ++
                      [{| a_assignment_id :=
                            assignment_number course_id
                              (S (length (get_course_assignments course_id d)));
                          a_title := title; a_description := description;
                          a_due_date := due_date; a_max_points := max_points;
                          a_created_at := isoformat now |}])).
  { by apply numbered_snoc. }
  split; [|split].
  - apply (numbered_next_fresh _ _ (assignment_number_inj course_id) _ Hn).
  - unfold get_course_assignments at 1, get_assignments at 1. simpl.
    rewrite lookup_insert_eq. exact Hnew.
  - unfold get_course_assignments at 1, get_assignments at 1. simpl.
    rewrite lookup_insert_eq. simpl.
    apply (numbered_NoDup _ _ (assignment_number_inj course_id) _ Hnew).
Qed.

Lemma create_assignment_numbering_witness :
  ∃ a, fst (create_assignment clock1 "CS101" "Graphs" "" "2024-04-01" 100 homework_disk)
       = RMsgId true "Assignment created successfully" (a_assignment_id a)
       ∧ a_assignment_id a ∉ ["CS101_1"; "CS101_2"].
Proof.
  destruct (create_assignment_numbering clock1 "CS101" "Graphs" "" "2024-04-01" 100
              homework_disk) as (a & Hrun & _ & _ & _ & Hfresh & _).
  { intros i x Hl. destruct i as [|[|i]]; vm_compute in Hl; [| |discriminate Hl];
      injection Hl as <-; reflexivity. }
  exists a. split; [by rewrite Hrun|exact Hfresh].
Defined.

(** X6. Ids are counted from the current length, so a deletion makes
    the next id collide: in a numbered list, after [delete_assignment]
    of any assignment but the last, [create_assignment] returns the id
    of the assignment that is now last, and the course then holds two
    assignments with that id. *)
Theorem assignment_id_reused_after_delete (now : Clock)
    (course_id title description due_date : string) (max_points : Z) (d : Disk)
    (i : nat) (a : Assignment) :
  numbered a_assignment_id (assignment_number course_id) (get_course_assignments course_id d) →
  get_course_assignments course_id d !! i = Some a →
  S i < length (get_course_assignments course_id d) →
  fst (delete_assignment course_id (a_assignment_id a) d)
    = RMsg true "Assignment deleted successfully"
  ∧ get_course_assignments course_id (snd (delete_assignment course_id (a_assignment_id a) d))
    = delete i (get_course_assignments course_id d)
  ∧ ∃ id last,
      fst (create_assignment now course_id title description due_date max_points
             (snd (delete_assignment course_id (a_assignment_id a) d)))
        = RMsgId true "Assignment created successfully" id
      ∧ last ∈ get_course_assignments course_id
                 (snd (delete_assignment course_id (a_assignment_id a) d))
      ∧ a_assignment_id last = id
      ∧ ¬ NoDup (assignment_ids
                   (get_course_assignments course_id
                      (snd (create_assignment now course_id title description due_date
                              max_points
                              (snd (delete_assignment course_id (a_assignment_id a) d)))))).
Proof.
  intros Hn Hi Hlt.
  pose proof (numbered_list_find _ _ (assignment_number_inj course_id) _ i a Hn Hi) as Hfind.
  unfold get_course_assignments, get_assignments in *.
  destruct (assignments_json d !! course_id) as [l|] eqn:Hl; simpl in *;
    [|by rewrite lookup_nil in Hi].
  assert (Hrun : delete_assignment course_id (a_assignment_id a) d
                 = (RMsg true "Assignment deleted successfully",
                    save_assignments (<[course_id := delete i l]> (assignments_json d)) d)).
  { unfold delete_assignment, get_assignments. by rewrite Hl, Hfind. }
  rewrite Hrun. simpl. rewrite lookup_insert_eq. simpl.
  split; [done|]. split; [done|].
  destruct (l !! (length l - 1)) as [last|] eqn:Hlast.
  2: { apply lookup_ge_None in Hlast. lia. }
  assert (Hkept : delete i l !! (length l - 2) = Some last).
  { rewrite list_lookup_delete_ge by lia. rewrite <- Hlast. f_equal. lia. }
  assert (Hlen : length (delete i l) = length l - 1).
  { rewrite length_delete by (by eexists). lia. }
  assert (Hid : a_assignment_id last
                = course_id +:+ "_" +:+ pretty (S (length (delete i l)))).
  { rewrite (Hn _ _ Hlast), Hlen. unfold assignment_number. repeat f_equal; lia. }
  exists (course_id +:+ "_" +:+ pretty (S (length (delete i l)))), last.
  unfold create_assignment, get_assignments. simpl. rewrite lookup_insert_eq. simpl.
  split; [done|]. split; [by eapply list_elem_of_lookup_2|]. split; [done|].
  unfold assignment_ids. rewrite fmap_app. simpl.
  intros Hnd. apply NoDup_app in Hnd as (_ & Hdisj & _).
  apply (Hdisj (a_assignment_id last)).
  - apply list_elem_of_fmap. exists last. split; [done|]. by eapply list_elem_of_lookup_2.
  - rewrite Hid. left.
Qed.

Lemma assignment_id_reused_after_delete_witness :
  fst (create_assignment clock1 "CS101" "Graphs" "" "2024-04-01" 100
         (snd (delete_assignment "CS101" "CS101_1" homework_disk)))
  = RMsgId true "Assignment created successfully" "CS101_2"
  ∧ homework2 ∈ get_course_assignments "CS101"
                  (snd (delete_assignment "CS101" "CS101_1" homework_disk)).
Proof.
  destruct (assignment_id_reused_after_delete clock1 "CS101" "Graphs" "" "2024-04-01" 100
              homework_disk 0 homework1) as (_ & _ & id & last & Hid & _).
  { intros i x Hl. destruct i as [|[|i]]; vm_compute in Hl; [| |discriminate Hl];
      injection Hl as <-; reflexivity. }
  { reflexivity. }
  { vm_compute. lia. }
  split; [reflexivity|]. vm_compute. left.
Defined.

Section first_match.
Context {A I : Type} `{EqDecision I} (id_of : A → I).

(** The scan finds an entry as soon as one carries the id. *)
Lemma list_find_id_elem_of (wanted : I) (l : list A) (x : A) :
  x ∈ l → id_of x = wanted →
  ∃ i y, list_find (λ z, id_of z = wanted) l = Some (i, y) ∧ id_of y = wanted ∧ l !! i = Some y.
Proof.
  intros Hin Hx. destruct (list_find_elem_of (λ z, id_of z = wanted) l x Hin Hx) as [[i y] Hf].
  exists i, y. split; [done|]. by apply list_find_Some in Hf as (? & ? & _).
Qed.

(** With distinct ids, deleting the entry found removes the id from the
    list and nothing else. *)
Lemma delete_found_elem_of (wanted : I) (l : list A) (i : nat) (y : A) :
  NoDup (id_of <$> l) → l !! i = Some y → id_of y = wanted →
  ∀ x, x ∈ delete i l ↔ x ∈ l ∧ id_of x ≠ wanted.
Proof.
  intros Hnd Hi Hy x. rewrite delete_take_drop.
  rewrite <- (take_drop_middle l i y Hi) in Hnd.
  rewrite <- (take_drop_middle l i y Hi) at 3.
  rewrite fmap_app, fmap_cons in Hnd.
  apply NoDup_app in Hnd as (_ & Hleft & Hright). apply NoDup_cons in Hright as [Hright _].
  rewrite !elem_of_app, elem_of_cons. split.
  - intros [Hx|Hx].
    + split; [by left|]. intros Heq. apply (Hleft (id_of x)).
      * apply list_elem_of_fmap. by exists x.
      * rewrite Heq, <- Hy. left.
    + split; [by right; right|]. intros Heq. apply Hright.
      rewrite Hy, <- Heq. apply list_elem_of_fmap. by exists x.
  - intros [[Hx|[->|Hx]] Hne]; [by left|done|by right].
Qed.

Lemma filter_keeps_all (P : A → Prop) `{∀ x, Decision (P x)} (l : list A) :
  (∀ x, x ∈ l → P x) → filter P l = l.
Proof.
  induction l as [|x l IH]; intros Hall; [done|].
  rewrite filter_cons_True by (apply Hall; left). f_equal. apply IH.
  intros y Hy. apply Hall. by right.
Qed.

(** With distinct ids, deleting the entry found is filtering the id
    out, in place. *)
Lemma delete_found_filter (wanted : I) (l : list A) (i : nat) (y : A) :
  NoDup (id_of <$> l) → l !! i = Some y → id_of y = wanted →
  delete i l = filter (λ x, id_of x ≠ wanted) l.
Proof.
  intros Hnd Hi Hy. rewrite delete_take_drop.
  rewrite <- (take_drop_middle l i y Hi) in Hnd.
  rewrite <- (take_drop_middle l i y Hi) at 3.
  rewrite fmap_app, fmap_cons in Hnd.
  apply NoDup_app in Hnd as (_ & Hleft & Hright). apply NoDup_cons in Hright as [Hright _].
  rewrite filter_app, filter_cons_False by (intros Hne; by apply Hne).
  rewrite !filter_keeps_all; [done| |].
  - intros x Hx Heq. apply Hright. rewrite Hy, <- Heq. apply list_elem_of_fmap. by exists x.
  - intros x Hx Heq. apply (Hleft (id_of x)).
    + apply list_elem_of_fmap. by exists x.
    + rewrite Heq, <- Hy. left.
Qed.
End first_match.

(** X7. In a course whose assignment ids are distinct,
    [delete_assignment] of an existing assignment succeeds and removes
    exactly the assignments with that id: every other assignment of the
    course stays, the list is one shorter, and the other courses are
    untouched. *)
Theorem delete_assignment_removes (course_id : string) (a : Assignment) (d : Disk) :
  NoDup (assignment_ids (get_course_assignments course_id d)) →
  a ∈ get_course_assignments course_id d →
  fst (delete_assignment course_id (a_assignment_id a) d)
    = RMsg true "Assignment deleted successfully"
  ∧ (∀ x, x ∈ get_course_assignments course_id
                (snd (delete_assignment course_id (a_assignment_id a) d))
          ↔ x ∈ get_course_assignments course_id d
            ∧ a_assignment_id x ≠ a_assignment_id a)
  ∧ S (length (get_course_assignments course_id
                 (snd (delete_assignment course_id (a_assignment_id a) d))))
    = length (get_course_assignments course_id d)
  ∧ ∀ other, other ≠ course_id →
      get_course_assignments other (snd (delete_assignment course_id (a_assignment_id a) d))
      = get_course_assignments other d.
Proof.
  intros Hnd Hin. unfold delete_assignment, get_course_assignments, get_assignments in *.
  destruct (assignments_json d !! course_id) as [l|] eqn:Hl; simpl in *;
    [|by apply elem_of_nil in Hin].
  destruct (list_find_id_elem_of a_assignment_id (a_assignment_id a) l a Hin eq_refl)
    as (i & y & Hfind & Hy & Hi).
  rewrite Hfind. simpl. rewrite lookup_insert_eq. simpl.
  split; [done|]. split; [|split].
  - by apply (delete_found_elem_of a_assignment_id (a_assignment_id a) l i y).
  - rewrite length_delete by (by eexists).
    pose proof (lookup_lt_Some _ _ _ Hi). lia.
  - intros other Hne. by rewrite lookup_insert_ne.
Qed.

Lemma delete_assignment_removes_witness :
  get_course_assignments "CS101" (snd (delete_assignment "CS101" "CS101_1" homework_disk))
  = [homework2]
  ∧ homework2 ∈ get_course_assignments "CS101"
                  (snd (delete_assignment "CS101" "CS101_1" homework_disk)).
Proof.
  split; [reflexivity|].
  apply (delete_assignment_removes "CS101" homework1 homework_disk).
  - apply (bool_decide_unpack _). vm_compute. exact I.
  - left.
  - split; [right; left|discriminate].
Defined.

(** X8. [update_assignment] of an existing assignment succeeds and edits
    in place: the ids of the course and their order are as before, and
    so is the number of assignments; a supplied title is the title of
    the first assignment with the id afterwards.  When the course has
    assignments but none with the id, the answer is "Assignment not
    found". *)
Theorem update_assignment_in_place (course_id assignment_id : string)
    (kwargs : AssignmentPatch) (l : list Assignment) (d : Disk) :
  get_assignments d !! course_id = Some l →
  ((∃ a, a ∈ l ∧ a_assignment_id a = assignment_id) →
     fst (update_assignment course_id assignment_id kwargs d)
       = RMsg true "Assignment updated successfully"
     ∧ assignment_ids
         (get_course_assignments course_id
            (snd (update_assignment course_id assignment_id kwargs d)))
       = assignment_ids l
     ∧ (∀ title, ap_title kwargs = Some title →
          ∃ i a', list_find (λ x, a_assignment_id x = assignment_id)
                    (get_course_assignments course_id
                       (snd (update_assignment course_id assignment_id kwargs d)))
                  = Some (i, a')
                  ∧ a_title a' = title))
  ∧ ((∀ a, a ∈ l → a_assignment_id a ≠ assignment_id) →
     update_assignment course_id assignment_id kwargs d
       = (RMsg false "Assignment not found", d)).
Proof.
  intros Hl. unfold update_assignment, get_course_assignments. rewrite Hl. split.
  - intros (a & Hin & Ha).
    destruct (list_find_id_elem_of a_assignment_id assignment_id l a Hin Ha)
      as (i & y & Hfind & Hy & Hi).
    rewrite Hfind. unfold get_assignments. simpl. rewrite lookup_insert_eq. simpl.
    split; [done|]. split.
    + unfold assignment_ids. rewrite list_fmap_insert. simpl.
      apply list_insert_id. rewrite list_lookup_fmap, Hi. simpl. by rewrite Hy.
    + intros title Htitle. exists i, (update_assignment_record kwargs y).
      split; [|simpl; by rewrite Htitle].
      apply list_find_Some in Hfind as (_ & _ & Hbefore).
      apply list_find_Some. split; [|split].
      * apply list_lookup_insert_eq. by eapply lookup_lt_Some.
      * done.
      * intros j z Hj Hlt. rewrite list_lookup_insert_ne in Hj by lia.
        by apply (Hbefore j z).
  - intros Hnone.
    assert (list_find (λ x, a_assignment_id x = assignment_id) l = None) as ->; [|done].
    apply list_find_None, Forall_forall. exact Hnone.
Qed.

Lemma update_assignment_in_place_witness :
  assignment_ids
    (get_course_assignments "CS101"
       (snd (update_assignment "CS101" "CS101_2"
               {| ap_title := Some "Heaps"; ap_description := None; ap_due_date := None;
                  ap_max_points := None |} homework_disk)))
  = ["CS101_1"; "CS101_2"]
  ∧ update_assignment "CS101" "CS101_9"
      {| ap_title := Some "Heaps"; ap_description := None; ap_due_date := None;
         ap_max_points := None |} homework_disk
    = (RMsg false "Assignment not found", homework_disk).
Proof.
  destruct (update_assignment_in_place "CS101" "CS101_2"
              {| ap_title := Some "Heaps"; ap_description := None; ap_due_date := None;
                 ap_max_points := None |} [homework1; homework2] homework_disk eq_refl)
    as [Hok _].
  destruct (update_assignment_in_place "CS101" "CS101_9"
              {| ap_title := Some "Heaps"; ap_description := None; ap_due_date := None;
                 ap_max_points := None |} [homework1; homework2] homework_disk eq_refl)
    as [_ Hmiss].
  split.
  - destruct Hok as (_ & Hids & _); [|exact Hids].
    exists homework2. split; [right; left|reflexivity].
  - apply Hmiss. intros a Ha. apply elem_of_cons in Ha as [->|Ha]; [discriminate|].
    apply list_elem_of_singleton in Ha as ->. discriminate.
Defined.

(** ** Grading and the submissions of a student *)

Lemma count_insert_same (student_email : string) (l : list Submission) (i : nat)
    (x y : Submission) :
  l !! i = Some x → s_student_email y = s_student_email x →
  length (filter (λ s, s_student_email s = student_email) (<[i := y]> l))
  = length (filter (λ s, s_student_email s = student_email) l).
Proof.
  revert i. induction l as [|z l IH]; intros i Hi Hxy; [done|].
  destruct i as [|i]; simpl in *.
  - injection Hi as ->. rewrite !filter_cons, Hxy.
    destruct (decide (s_student_email x = student_email)); done.
  - rewrite !filter_cons.
    destruct (decide (s_student_email z = student_email)); simpl; by rewrite (IH i).
Qed.

Lemma list_find_insert_same (student_email : string) (l : list Submission) (i : nat)
    (x y : Submission) :
  list_find (λ s, s_student_email s = student_email) l = Some (i, x) →
  s_student_email y = s_student_email x →
  list_find (λ s, s_student_email s = student_email) (<[i := y]> l) = Some (i, y).
Proof.
  intros Hfind Hxy. apply list_find_Some in Hfind as (Hi & Hx & Hbefore).
  apply list_find_Some. split; [|split].
  - apply list_lookup_insert_eq. by eapply lookup_lt_Some.
  - simpl. by rewrite Hxy.
  - intros j z Hj Hlt. rewrite list_lookup_insert_ne in Hj by lia. by apply (Hbefore j z).
Qed.

Lemma save_submissions_twice (v w : gmap string (list Submission)) (d : Disk) :
  save_submissions v (save_submissions w d) = save_submissions v d.
Proof. done. Qed.

(** X9. [grade_submission] on a pair that has a submission succeeds and
    writes grade, feedback and grading time into the student's entry,
    keeping its text; it changes no entry count, so it never creates or
    removes a submission; and grading again overwrites: two gradings
    leave what the second alone would have left. *)
Theorem grade_submission_overwrites (now1 now2 : Clock) (assignment_id student_email : string)
    (grade1 grade2 : Z) (feedback1 feedback2 : option string) (d : Disk) :
  (∃ s, s ∈ get_assignment_submissions assignment_id d ∧ s_student_email s = student_email) →
  fst (grade_submission now1 assignment_id student_email grade1 feedback1 d)
    = RMsg true "Submission graded successfully"
  ∧ (∃ i s s',
       list_find (λ x, s_student_email x = student_email)
         (get_assignment_submissions assignment_id d) = Some (i, s)
       ∧ list_find (λ x, s_student_email x = student_email)
           (get_assignment_submissions assignment_id
              (snd (grade_submission now1 assignment_id student_email grade1 feedback1 d)))
         = Some (i, s')
       ∧ s_grade s' = Some grade1 ∧ s_feedback s' = feedback1
       ∧ s_graded_at s' = Some (isoformat now1)
       ∧ s_submission_text s' = s_submission_text s
       ∧ s_submitted_at s' = s_submitted_at s)
  ∧ (∀ i e,
       submission_count i e
         (snd (grade_submission now1 assignment_id student_email grade1 feedback1 d))
       = submission_count i e d)
  ∧ snd (grade_submission now2 assignment_id student_email grade2 feedback2
           (snd (grade_submission now1 assignment_id student_email grade1 feedback1 d)))
    = snd (grade_submission now2 assignment_id student_email grade2 feedback2 d).
Proof.
  intros (s0 & Hin & Hs0).
  unfold get_assignment_submissions, submission_count, get_assignment_submissions,
    get_submissions in *.
  destruct (submissions_json d !! assignment_id) as [l|] eqn:Hl; simpl in *;
    [|by apply elem_of_nil in Hin].
  destruct (list_find_elem_of (λ x, s_student_email x = student_email) l s0 Hin Hs0)
    as [[i s] Hfind].
  pose proof Hfind as Hfound. apply list_find_Some in Hfound as (Hi & Hs & _).
  assert (Hrun : ∀ now grade feedback,
            grade_submission now assignment_id student_email grade feedback d
            = (RMsg true "Submission graded successfully",
               save_submissions
                 (<[assignment_id := <[i := grade_submission_record now grade feedback s]> l]>
                    (submissions_json d)) d)).
  { intros. unfold grade_submission, get_submissions. by rewrite Hl, Hfind. }
  rewrite !Hrun. simpl. rewrite lookup_insert_eq. simpl.
  split; [done|]. split; [|split].
  - exists i, s, (grade_submission_record now1 grade1 feedback1 s).
    split; [done|]. split; [by apply (list_find_insert_same _ _ _ s)|]. done.
  - intros j e. destruct (decide (j = assignment_id)) as [->|Hne].
    + rewrite lookup_insert_eq, Hl. simpl. by apply (count_insert_same _ _ _ s).
    + by rewrite lookup_insert_ne.
  - unfold grade_submission, get_submissions. simpl. rewrite lookup_insert_eq.
    rewrite (list_find_insert_same _ _ _ s _ Hfind) by done.
    rewrite save_submissions_twice, insert_insert_eq, list_insert_insert_eq. done.
Qed.

Lemma grade_submission_overwrites_witness :
  fst (grade_submission clock1 "CS101_1" "student@x.edu" 85 (Some "good") submitted_disk)
    = RMsg true "Submission graded successfully"
  ∧ submission_count "CS101_1" "student@x.edu"
      (snd (grade_submission clock1 "CS101_1" "student@x.edu" 85 (Some "good")
              submitted_disk)) = 1.
Proof.
  destruct (grade_submission_overwrites clock1 clock1 "CS101_1" "student@x.edu" 85 85
              (Some "good") (Some "good") submitted_disk) as (Hok & _ & Hcount & _).
  { exists answer. split; [left|reflexivity]. }
  split; [exact Hok|]. rewrite Hcount. reflexivity.
Defined.

Lemma get_student_submissions_elem_of (student_email id : string) (s : Submission)
    (d : Disk) :
  (id, s) ∈ get_student_submissions student_email d
  ↔ s ∈ get_assignment_submissions id d ∧ s_student_email s = student_email.
Proof.
  unfold get_student_submissions, get_assignment_submissions. rewrite list_elem_of_bind.
  split.
  - intros ([k l] & Hin & Hkl). apply elem_of_map_to_list in Hkl.
    apply list_elem_of_bind in Hin as (x & Hx & Hf).
    apply list_elem_of_singleton in Hx. injection Hx as -> ->.
    apply list_elem_of_filter in Hf as [Hs Hf]. by rewrite Hkl.
  - intros [Hin Hs]. destruct (get_submissions d !! id) as [l|] eqn:Hl; simpl in Hin;
      [|by apply elem_of_nil in Hin].
    exists (id, l). split; [|by apply elem_of_map_to_list].
    apply list_elem_of_bind. exists s. split; [left|]. by apply list_elem_of_filter.
Qed.

(** X10. [get_student_submissions] lists exactly the stored entries of
    the student, each with the id it is stored under.  A first submit
    followed by a grading therefore shows up for the student as one
    entry under that id, carrying the submitted text and the grade. *)
Theorem student_submissions_after_grading (now1 now2 : Clock)
    (assignment_id student_email text : string) (file_path : option string) (grade : Z)
    (feedback : option string) (d : Disk) :
  (∀ id s, (id, s) ∈ get_student_submissions student_email d
           ↔ s ∈ get_assignment_submissions id d ∧ s_student_email s = student_email)
  ∧ ((∀ s, s ∈ get_assignment_submissions assignment_id d →
           s_student_email s ≠ student_email) →
     ∃ graded,
       s_submission_text graded = text ∧ s_grade graded = Some grade
       ∧ s_feedback graded = feedback
       ∧ ∀ s, (assignment_id, s)
                ∈ get_student_submissions student_email
                    (snd (grade_submission now2 assignment_id student_email grade feedback
                            (snd (submit_assignment now1 assignment_id student_email text
                                    file_path d))))
              ↔ s = graded).
Proof.
  split; [intros id s; apply get_student_submissions_elem_of|].
  intros Hnone.
  pose proof (proj2 (has_submitted_false _ _) Hnone) as Hscan.
  unfold has_submitted in Hscan. apply bool_decide_eq_false in Hscan.
  assert (Hfind0 : list_find (λ x, s_student_email x = student_email)
                     (get_assignment_submissions assignment_id d) = None).
  { destruct (list_find _ _) eqn:E; [|done]. exfalso. apply Hscan. by eexists. }
  set (l := get_assignment_submissions assignment_id d) in *.
  set (s0 := {| s_student_email := student_email; s_submission_text := text;
                s_file_path := file_path; s_group_members := None;
                s_submitted_at := isoformat now1;
                s_grade := None; s_feedback := None; s_graded_at := None |}).
  assert (Hsubmit : submit_assignment now1 assignment_id student_email text file_path d
                    = (RMsg true "Assignment submitted successfully",
                       save_submissions (<[assignment_id := l ++ [s0]]> (get_submissions d)) d)).
  { unfold submit_assignment. fold (get_assignment_submissions assignment_id d). fold l.
    rewrite (proj2 (has_submitted_false _ _) Hnone). done. }
  assert (Hfind : list_find (λ x, s_student_email x = student_email) (l ++ [s0])
                  = Some (length l, s0)).
  { apply list_find_Some. split; [|split; [done|]].
    - rewrite lookup_app_r by lia. by rewrite Nat.sub_diag.
    - intros j y Hj Hlt. rewrite lookup_app_l in Hj by lia.
      apply Hnone. by eapply list_elem_of_lookup_2. }
  exists (grade_submission_record now2 grade feedback s0).
  split; [done|]. split; [done|]. split; [done|].
  intros s. rewrite get_student_submissions_elem_of. rewrite Hsubmit. simpl.
  unfold grade_submission, get_assignment_submissions, get_submissions. simpl.
  rewrite lookup_insert_eq, Hfind. simpl. rewrite lookup_insert_eq. simpl.
  replace (length l) with (length l + 0) by lia.
  rewrite insert_app_r. simpl. rewrite elem_of_app, list_elem_of_singleton. split.
  - intros [[Hs|Hs] He]; [by destruct (Hnone s Hs)|done].
  - intros ->. split; [by right|done].
Qed.

Lemma student_submissions_after_grading_witness :
  ∃ graded, s_grade graded = Some 85%Z
    ∧ (("CS101_1", graded)
         ∈ get_student_submissions "student@x.edu"
             (snd (grade_submission clock1 "CS101_1" "student@x.edu" 85 None
                     (snd (submit_assignment clock0 "CS101_1" "student@x.edu" "answer" None
                             cs_disk))))).
Proof.
  destruct (student_submissions_after_grading clock0 clock1 "CS101_1" "student@x.edu"
              "answer" None 85 None cs_disk) as [_ Hone].
  destruct Hone as (graded & _ & Hgrade & _ & Hiff).
  { intros s Hs. vm_compute in Hs. by apply elem_of_nil in Hs. }
  exists graded. split; [exact Hgrade|]. by apply Hiff.
Defined.

(** ** Removing a student from a course *)






(** ** The attendance of a student *)

(** X12. [get_student_attendance] has an entry for every course of the
    attendance document, also for courses in which the student has no
    record (an empty entry), and under a course and a date it holds
    exactly the record stored for the student; a mark just made is
    found there. *)
Theorem student_attendance_view (now : Clock) (course_id date student_email status : string)
    (d : Disk) :
  dom (get_student_attendance student_email d) = dom (get_attendance d)
  ∧ (∀ c dt,
       get_student_attendance student_email d !! c
         ≫= (λ dates : gmap string Mark, dates !! dt)
       = attendance_of c dt student_email d)
  ∧ get_student_attendance student_email
      (snd (mark_attendance now course_id date student_email status d)) !! course_id
      ≫= (λ dates : gmap string Mark, dates !! date)
    = Some {| m_status := status; m_marked_at := isoformat now |}.
Proof.
  assert (Hview : ∀ d' c dt,
            get_student_attendance student_email d' !! c
              ≫= (λ dates : gmap string Mark, dates !! dt)
            = attendance_of c dt student_email d').
  { intros d' c dt. unfold get_student_attendance, attendance_of, get_attendance.
    rewrite lookup_fmap. destruct (attendance_json d' !! c) as [dates|]; simpl; [|done].
    rewrite lookup_omap. destruct (dates !! dt); done. }
  split; [|split].
  - unfold get_student_attendance. apply dom_fmap_L.
  - apply Hview.
  - rewrite Hview, attendance_of_marked. by rewrite decide_True.
Qed.

(** ** Exam results *)

Lemma exam_result_of_added (now : Clock) (exam_id student_email subject_id : string)
    (marks : Z) (remarks : option string) (d : Disk) (e' s' j' : string) :
  exam_result_of e' s' j'
    (snd (add_exam_result now exam_id student_email subject_id marks remarks d))
  = if decide (e' = exam_id ∧ s' = student_email ∧ j' = subject_id)
    then Some {| r_marks := marks; r_remarks := remarks; r_updated_at := strftime_human now |}
    else exam_result_of e' s' j' d.
Proof.
  unfold exam_result_of, add_exam_result, get_exam_results. simpl.
  destruct (decide (e' = exam_id)) as [->|He].
  2: { rewrite lookup_insert_ne by done. rewrite decide_False by tauto. done. }
  rewrite lookup_insert_eq. simpl.
  destruct (decide (s' = student_email)) as [->|Hs].
  2: { rewrite lookup_insert_ne by done. rewrite decide_False by tauto.
       destruct (exam_results_json d !! exam_id); done. }
  rewrite lookup_insert_eq. simpl.
  destruct (decide (j' = subject_id)) as [->|Hj].
  - rewrite lookup_insert_eq. by rewrite decide_True.
  - rewrite lookup_insert_ne by done. rewrite decide_False by tauto.
    destruct (exam_results_json d !! exam_id) as [students|]; simpl; [|done].
    destruct (students !! student_email); done.
Qed.

(** Dropping an emptied dictionary instead of storing it cannot be seen
    by a lookup that goes one level deeper. *)
Lemma cleanup_lookup_bind {V B} (k k' : string) (v : gmap string V)
    (m : gmap string (gmap string V)) (f : gmap string V → option B) :
  f ∅ = None →
  (if bool_decide (v = ∅) then delete k m else <[k := v]> m) !! k' ≫= f
  = <[k := v]> m !! k' ≫= f.
Proof.
  intros Hf. case_bool_decide as Hv; [|done]. subst v.
  destruct (decide (k' = k)) as [->|Hne].
  - rewrite lookup_delete_eq, lookup_insert_eq. simpl. by rewrite Hf.
  - by rewrite lookup_delete_ne, lookup_insert_ne.
Qed.

Lemma exam_result_of_deleted (exam_id student_email subject_id : string) (r : ExamResult)
    (d : Disk) (e' s' j' : string) :
  exam_result_of exam_id student_email subject_id d = Some r →
  exam_result_of e' s' j' (snd (delete_exam_result exam_id student_email subject_id d))
  = if decide (e' = exam_id ∧ s' = student_email ∧ j' = subject_id)
    then None else exam_result_of e' s' j' d.
Proof.
  unfold exam_result_of. intros Hr.
  destruct (get_exam_results d !! exam_id) as [students|] eqn:He; [|done]. simpl in Hr.
  destruct (students !! student_email) as [subjects|] eqn:Hs; [|done]. simpl in Hr.
  unfold delete_exam_result. rewrite He, Hs, Hr. simpl.
  unfold get_exam_results in *. simpl.
  rewrite (cleanup_lookup_bind exam_id e') by done.
  destruct (decide (e' = exam_id)) as [->|Hne].
  2: { rewrite lookup_insert_ne by done. by rewrite decide_False by tauto. }
  rewrite lookup_insert_eq, He. simpl.
  rewrite (cleanup_lookup_bind student_email s') by done.
  destruct (decide (s' = student_email)) as [->|Hns].
  2: { rewrite lookup_insert_ne by done. by rewrite decide_False by tauto. }
  rewrite lookup_insert_eq, Hs. simpl.
  destruct (decide (j' = subject_id)) as [->|Hnj].
  - rewrite lookup_delete_eq. by rewrite decide_True.
  - rewrite lookup_delete_ne by done. by rewrite decide_False by tauto.
Qed.

(** X13. The exam-results document behaves as a map from (exam,
    student, subject) to a result.  [add_exam_result] always returns
    [True] and stores the result under its triple, replacing an earlier
    one; [delete_exam_result] of a stored result returns [True] and
    removes it; in both cases every other triple reads as before.
    [delete_exam_result] of a triple without a result returns [False]
    and changes nothing.  [get_student_exam_results] shows, per exam and
    subject, exactly the results stored for the student. *)
Theorem exam_results_as_map (now : Clock) (exam_id student_email subject_id : string)
    (marks : Z) (remarks : option string) (d : Disk) :
  fst (add_exam_result now exam_id student_email subject_id marks remarks d) = RBool true
  ∧ (∀ e' s' j',
       exam_result_of e' s' j'
         (snd (add_exam_result now exam_id student_email subject_id marks remarks d))
       = if decide (e' = exam_id ∧ s' = student_email ∧ j' = subject_id)
         then Some {| r_marks := marks; r_remarks := remarks;
                      r_updated_at := strftime_human now |}
         else exam_result_of e' s' j' d)
  ∧ (is_Some (exam_result_of exam_id student_email subject_id d) →
     fst (delete_exam_result exam_id student_email subject_id d) = RBool true
     ∧ ∀ e' s' j',
         exam_result_of e' s' j'
           (snd (delete_exam_result exam_id student_email subject_id d))
         = if decide (e' = exam_id ∧ s' = student_email ∧ j' = subject_id)
           then None else exam_result_of e' s' j' d)
  ∧ (exam_result_of exam_id student_email subject_id d = None →
     delete_exam_result exam_id student_email subject_id d = (RBool false, d))
  ∧ ∀ e' j',
      get_student_exam_results student_email d !! e'
        ≫= (λ subjects : gmap string ExamResult, subjects !! j')
      = exam_result_of e' student_email j' d.
Proof.
  split; [done|]. split; [intros; apply exam_result_of_added|]. split; [|split].
  - intros [r Hr]. split; [|intros; by eapply exam_result_of_deleted].
    unfold exam_result_of in Hr.
    destruct (get_exam_results d !! exam_id) as [students|] eqn:He; [|done]. simpl in Hr.
    destruct (students !! student_email) as [subjects|] eqn:Hs; [|done]. simpl in Hr.
    unfold delete_exam_result. by rewrite He, Hs, Hr.
  - unfold exam_result_of, delete_exam_result. intros Hnone.
    destruct (get_exam_results d !! exam_id) as [students|]; [|done]. simpl in Hnone.
    destruct (students !! student_email) as [subjects|]; [|done]. simpl in Hnone.
    by rewrite Hnone.
  - intros e' j'. unfold get_student_exam_results, exam_result_of.
    rewrite lookup_omap. destruct (get_exam_results d !! e') as [students|]; simpl; [|done].
    destruct (students !! student_email); done.
Qed.

Lemma exam_results_as_map_witness :
  exam_result_of "exam_1_20240110090000" "student@x.edu" "subject_1"
    (snd (delete_exam_result "exam_1_20240110090000" "student@x.edu" "subject_1" exam_disk))
  = None
  ∧ exam_result_of "exam_2_20240110090000" "student@x.edu" "subject_1"
      (snd (delete_exam_result "exam_1_20240110090000" "student@x.edu" "subject_1"
              exam_disk))
    = Some a_result
  ∧ delete_exam_result "exam_1_20240110090000" "student@x.edu" "subject_2" exam_disk
    = (RBool false, exam_disk).
Proof.
  destruct (exam_results_as_map clock0 "exam_1_20240110090000" "student@x.edu" "subject_1"
              0 None exam_disk) as (_ & _ & Hdel & _).
  destruct (exam_results_as_map clock0 "exam_1_20240110090000" "student@x.edu" "subject_2"
              0 None exam_disk) as (_ & _ & _ & Hmiss & _).
  destruct Hdel as [_ Hread]; [by eexists|].
  split; [|split].
  - rewrite Hread. reflexivity.
  - rewrite Hread. reflexivity.
  - apply Hmiss. reflexivity.
Defined.

Lemma cleanup_restores {V} (k : string) (m : gmap string (gmap string V)) :
  m !! k ≠ Some ∅ →
  (if bool_decide (default ∅ (m !! k) = ∅) then delete k m
   else <[k := default ∅ (m !! k)]> m) = m.
Proof.
  intros Hk. destruct (m !! k) as [v|] eqn:E; simpl.
  - rewrite bool_decide_eq_false_2 by congruence. by apply insert_id.
  - rewrite bool_decide_eq_true_2 by done. by apply delete_id.
Qed.

(** X14. The exam-results document never keeps an empty dictionary:
    "no student without results, no exam without students" is preserved
    by [add_exam_result], [delete_exam_result] and
    [delete_exam_results].  On such a document, deleting a result that
    was just added for a triple without a result restores the data
    directory exactly. *)
Theorem exam_results_stay_tidy (now : Clock) (exam_id student_email subject_id : string)
    (marks : Z) (remarks : option string) (d : Disk) :
  tidy (get_exam_results d) →
  tidy (get_exam_results
          (snd (add_exam_result now exam_id student_email subject_id marks remarks d)))
  ∧ tidy (get_exam_results (snd (delete_exam_result exam_id student_email subject_id d)))
  ∧ tidy (get_exam_results (snd (delete_exam_results exam_id d)))
  ∧ (exam_result_of exam_id student_email subject_id d = None →
     snd (delete_exam_result exam_id student_email subject_id
            (snd (add_exam_result now exam_id student_email subject_id marks remarks d)))
     = d).
Proof.
  intros Htidy. unfold get_exam_results in *.
  assert (Hinner : ∀ students s subjects,
            exam_results_json d !! exam_id = Some students →
            students !! s = Some subjects → subjects ≠ ∅).
  { intros students s subjects He Hs. by apply (proj2 (Htidy _ _ He) s). }
  split; [|split; [|split]].
  - unfold add_exam_result, get_exam_results. simpl. intros e students He.
    destruct (decide (e = exam_id)) as [->|Hne].
    2: { rewrite lookup_insert_ne in He by done. exact (Htidy _ _ He). }
    rewrite lookup_insert_eq in He. injection He as <-.
    split; [apply insert_non_empty|]. intros s subjects Hs.
    destruct (decide (s = student_email)) as [->|Hns].
    + rewrite lookup_insert_eq in Hs. injection Hs as <-. apply insert_non_empty.
    + rewrite lookup_insert_ne in Hs by done.
      destruct (exam_results_json d !! exam_id) as [students|] eqn:E; simpl in Hs;
        [by eapply Hinner|done].
  - unfold delete_exam_result, get_exam_results.
    destruct (exam_results_json d !! exam_id) as [students|] eqn:He; [|done].
    destruct (students !! student_email) as [subjects|] eqn:Hs; [|done].
    destruct (subjects !! subject_id) as [r|] eqn:Hr; [|done]. simpl.
    intros e students' He'. case_bool_decide as Hall.
    + destruct (decide (e = exam_id)) as [->|Hne];
        [by rewrite lookup_delete_eq in He'|].
      rewrite lookup_delete_ne in He' by done. exact (Htidy _ _ He').
    + destruct (decide (e = exam_id)) as [->|Hne].
      2: { rewrite lookup_insert_ne in He' by done. exact (Htidy _ _ He'). }
      rewrite lookup_insert_eq in He'. injection He' as <-. split; [done|].
      intros s subjects' Hs'. case_bool_decide as Hsub.
      * destruct (decide (s = student_email)) as [->|Hns];
          [by rewrite lookup_delete_eq in Hs'|].
        rewrite lookup_delete_ne in Hs' by done. by eapply Hinner.
      * destruct (decide (s = student_email)) as [->|Hns].
        -- rewrite lookup_insert_eq in Hs'. by injection Hs' as <-.
        -- rewrite lookup_insert_ne in Hs' by done. by eapply Hinner.
  - unfold delete_exam_results, get_exam_results.
    destruct (exam_results_json d !! exam_id) as [students|] eqn:He; [|done]. simpl.
    intros e students' He'. destruct (decide (e = exam_id)) as [->|Hne];
      [by rewrite lookup_delete_eq in He'|].
    rewrite lookup_delete_ne in He' by done. exact (Htidy _ _ He').
  - intros Hnone. unfold exam_result_of, get_exam_results in Hnone.
    unfold delete_exam_result, add_exam_result, get_exam_results. simpl.
    rewrite lookup_insert_eq. simpl. rewrite lookup_insert_eq. simpl.
    rewrite lookup_insert_eq. simpl.
    set (students := default ∅ (exam_results_json d !! exam_id)) in *.
    set (subjects := default ∅ (students !! student_email)) in *.
    assert (Hj : subjects !! subject_id = None).
    { unfold subjects, students.
      destruct (exam_results_json d !! exam_id) as [st|]; simpl in *; [|done].
      destruct (st !! student_email); simpl in *; done. }
    rewrite delete_insert_eq, (delete_id subjects) by done.
    assert (Hstudents :
              (if bool_decide (subjects = ∅)
               then delete student_email
                      (<[student_email := <[subject_id :=
                           {| r_marks := marks; r_remarks := remarks;
                              r_updated_at := strftime_human now |}]> subjects]> students)
               else <[student_email := subjects]>
                      (<[student_email := <[subject_id :=
                           {| r_marks := marks; r_remarks := remarks;
                              r_updated_at := strftime_human now |}]> subjects]> students))
              = students).
    { rewrite delete_insert_eq, insert_insert_eq. apply cleanup_restores.
      intros Hs. unfold students in Hs.
      destruct (exam_results_json d !! exam_id) as [st|] eqn:E; simpl in Hs; [|done].
      by apply (Hinner st student_email ∅). }
    rewrite Hstudents. rewrite delete_insert_eq, insert_insert_eq.
    unfold students. rewrite cleanup_restores.
    + by destruct d.
    + intros He. by destruct (Htidy exam_id ∅ He).
Qed.

Lemma exam_results_stay_tidy_witness :
  snd (delete_exam_result "exam_1_20240110090000" "student@x.edu" "subject_2"
         (snd (add_exam_result clock1 "exam_1_20240110090000" "student@x.edu" "subject_2"
                 55 None exam_disk)))
  = exam_disk.
Proof.
  refine (proj2 (proj2 (proj2 (exam_results_stay_tidy clock1 "exam_1_20240110090000"
            "student@x.edu" "subject_2" 55 None exam_disk _))) _); [|reflexivity].
  intros e students He. unfold exam_disk, get_exam_results in He. simpl in He.
  apply lookup_insert_Some in He as [[_ <-]|[_ He]].
  - split; [apply insert_non_empty|]. intros s subjects Hs.
    apply lookup_singleton_Some in Hs as [_ <-]. apply insert_non_empty.
  - apply lookup_singleton_Some in He as [_ <-].
    split; [apply insert_non_empty|]. intros s subjects Hs.
    apply lookup_singleton_Some in Hs as [_ <-]. apply insert_non_empty.
Defined.

(** ** Exams and subjects *)

(** X15. [update_exam] of an existing exam always returns [True] and
    overwrites a field only with a truthy argument: an absent argument,
    an empty string or a zero leaves the stored value, so an update
    with nothing but such arguments changes nothing, and a stored
    non-empty name or non-zero maximum stays non-empty or non-zero.  The
    exam id and the creation time are never changed.  A non-empty name
    and a non-zero maximum are stored as given. *)
Theorem update_exam_ignores_falsy (exam_id : string) (exam_name exam_type : option string)
    (semester : option Z) (date : option string) (max_marks : option Z) (e : Exam)
    (d : Disk) :
  get_exams d !! exam_id = Some e →
  fst (update_exam exam_id exam_name exam_type semester date max_marks d) = RBool true
  ∧ (∃ e',
       get_exams (snd (update_exam exam_id exam_name exam_type semester date max_marks d))
         !! exam_id = Some e'
       ∧ e_exam_id e' = e_exam_id e ∧ e_created_at e' = e_created_at e
       ∧ (e_exam_name e ≠ "" → e_exam_name e' ≠ "")
       ∧ (e_max_marks e ≠ 0%Z → e_max_marks e' ≠ 0%Z)
       ∧ (∀ name, exam_name = Some name → name ≠ "" → e_exam_name e' = name)
       ∧ (∀ m, max_marks = Some m → m ≠ 0%Z → e_max_marks e' = m))
  ∧ (truthy_str exam_name = false → truthy_str exam_type = false →
     truthy_int semester = false → truthy_str date = false →
     truthy_int max_marks = false →
     snd (update_exam exam_id exam_name exam_type semester date max_marks d) = d).
Proof.
  intros He. unfold update_exam. rewrite He. cbn [fst snd]. split; [done|]. split.
  - eexists. unfold get_exams. simpl. rewrite lookup_insert_eq.
    split; [done|]. simpl. split; [done|]. split; [done|].
    split; [|split; [|split]].
    + intros Hname. destruct exam_name as [name|]; simpl; [|done].
      destruct (String.eqb_spec name ""); simpl; done.
    + intros Hmax. destruct max_marks as [m|]; simpl; [|done].
      destruct (Z.eqb_spec m 0); simpl; done.
    + intros name -> Hname. simpl. destruct (String.eqb_spec name ""); simpl; done.
    + intros m -> Hm. simpl. destruct (Z.eqb_spec m 0); simpl; done.
  - intros H1 H2 H3 H4 H5. unfold update_exam_record. rewrite H1, H2, H3, H4, H5.
    unfold get_exams in *.
    assert ({| e_exam_id := e_exam_id e; e_exam_name := e_exam_name e;
               e_exam_type := e_exam_type e; e_semester := e_semester e;
               e_date := e_date e; e_max_marks := e_max_marks e;
               e_created_at := e_created_at e |} = e) as -> by (by destruct e).
    rewrite insert_id by done. by destruct d.
Qed.

Lemma update_exam_ignores_falsy_witness :
  snd (update_exam "exam_1_20240110090000" (Some "") None (Some 0%Z) None None exam_disk)
    = exam_disk
  ∧ fst (update_exam "exam_1_20240110090000" (Some "") None (Some 0%Z) None None exam_disk)
    = RBool true.
Proof.
  destruct (update_exam_ignores_falsy "exam_1_20240110090000" (Some "") None (Some 0%Z)
              None None midsem exam_disk eq_refl) as (Hok & _ & Hsame).
  split; [by apply Hsame|exact Hok].
Defined.

Lemma keyed_by_id_unchanged (d d' : Disk) :
  get_exams d' = get_exams d → get_subjects d' = get_subjects d →
  keyed_by_id d → keyed_by_id d'.
Proof. unfold keyed_by_id. by intros -> ->. Qed.

Lemma keyed_by_id_exams (exams : gmap string Exam) (d : Disk) :
  (∀ k e, exams !! k = Some e → e_exam_id e = k) →
  keyed_by_id d → keyed_by_id (save_exams exams d).
Proof. intros He [_ Hs]. split; [exact He|exact Hs]. Qed.

Lemma keyed_by_id_subjects (subjects : gmap string Subject) (d : Disk) :
  (∀ k s, subjects !! k = Some s → sj_subject_id s = k) →
  keyed_by_id d → keyed_by_id (save_subjects subjects d).
Proof. intros Hs [He _]. split; [exact He|exact Hs]. Qed.

(** X16. Every exam and every subject is stored under the id that its
    record carries, and no mutating function of the three modules
    breaks this: [add_exam] and [add_subject] write the generated id
    into the record and store it under that id, the update functions
    keep the id, and the other functions do not touch the two
    documents. *)
Theorem keyed_by_id_preserved (hash_password : string → string) (now : Clock) (c : call)
    (d : Disk) :
  keyed_by_id d → keyed_by_id (snd (run hash_password now c d)).
Proof.
  intros Hk. pose proof Hk as [He Hs].
  destruct c; simpl;
    try (unfold create_user, update_user, delete_user, add_course, update_course,
           delete_course, add_department, update_department, delete_department,
           mark_attendance, remove_student_from_course, create_assignment,
           update_assignment, delete_assignment, submit_assignment, grade_submission,
           create_project, submit_project, submit_certificate, verify_certificate,
           create_announcement, delete_announcement, add_exam_result,
           delete_exam_result, delete_exam_results, get_departments;
         repeat branch; simpl; simplify_eq;
         by (apply (keyed_by_id_unchanged d); [reflexivity|reflexivity|exact Hk])).
  - unfold add_department, get_departments.
    destruct (departments_json d); repeat branch; by apply (keyed_by_id_unchanged d).
  - unfold update_department, get_departments.
    destruct (departments_json d); repeat branch; by apply (keyed_by_id_unchanged d).
  - unfold delete_department, get_departments.
    destruct (departments_json d); repeat branch; by apply (keyed_by_id_unchanged d).
  - (* add_subject *)
    apply keyed_by_id_subjects; [|done]. intros k s Hl.
    apply lookup_insert_Some in Hl as [[<- <-]|[_ Hl]]; [done|by apply Hs].
  - (* update_subject *)
    unfold update_subject. destruct (get_subjects d !! subject_id) as [s|] eqn:E; [|done].
    apply keyed_by_id_subjects; [|done]. intros k s' Hl.
    apply lookup_insert_Some in Hl as [[<- <-]|[_ Hl]]; [simpl; by apply Hs|by apply Hs].
  - (* delete_subject *)
    unfold delete_subject. destruct (get_subjects d !! subject_id) as [s|] eqn:E; [|done].
    apply keyed_by_id_subjects; [|done]. intros k s' Hl.
    apply lookup_delete_Some in Hl as [_ Hl]. by apply Hs.
  - (* add_exam *)
    apply keyed_by_id_exams; [|done]. intros k e Hl.
    apply lookup_insert_Some in Hl as [[<- <-]|[_ Hl]]; [done|by apply He].
  - (* update_exam *)
    unfold update_exam. destruct (get_exams d !! exam_id) as [e|] eqn:E; [|done].
    apply keyed_by_id_exams; [|done]. intros k e' Hl.
    apply lookup_insert_Some in Hl as [[<- <-]|[_ Hl]]; [simpl; by apply He|by apply He].
  - (* delete_exam *)
    unfold delete_exam. destruct (get_exams d !! exam_id) as [e|] eqn:E; [|done].
    unfold delete_exam_results.
    destruct (get_exam_results _ !! exam_id); simpl;
      (split; [|exact Hs]); intros k e' Hl; unfold get_exams in Hl; simpl in Hl;
      apply lookup_delete_Some in Hl as [_ Hl]; by apply He.
Qed.

Lemma keyed_by_id_preserved_witness :
  keyed_by_id (snd (run tagged_digest clock1
                      (AddExam "End Sem" "End Sem" 1 "2024-05-01" 100) exam_disk)).
Proof.
  apply (keyed_by_id_preserved tagged_digest clock1
           (AddExam "End Sem" "End Sem" 1 "2024-05-01" 100) exam_disk).
  split.
  - intros k e Hl. unfold exam_disk, get_exams in Hl. simpl in Hl.
    apply lookup_singleton_Some in Hl as [<- <-]. reflexivity.
  - intros k s Hl. unfold exam_disk, get_subjects in Hl. simpl in Hl.
    by rewrite lookup_empty in Hl.
Defined.

(** ** Departments *)

(** X17. The delete guard follows the current name of the department.
    After [update_department] gives an existing department a name that
    no course uses, [delete_department] succeeds, courses that still
    name the old department notwithstanding; the update itself keeps
    the creation time of the department. *)
Theorem department_rename_moves_guard (now : Clock) (dept_id name hod_email description : string)
    (dep : Department) (d : Disk) :
  fst (get_departments now d) !! dept_id = Some dep →
  (∀ course_id course, get_courses d !! course_id = Some course →
                       c_department course ≠ Some name) →
  fst (update_department now dept_id name hod_email description d)
    = RMsg true "Department updated successfully"
  ∧ (∃ dep', fst (get_departments now
                    (snd (update_department now dept_id name hod_email description d)))
               !! dept_id = Some dep'
             ∧ d_name dep' = name ∧ d_hod_email dep' = hod_email
             ∧ d_created_at dep' = d_created_at dep)
  ∧ fst (delete_department now dept_id
           (snd (update_department now dept_id name hod_email description d)))
    = RMsg true "Department deleted successfully"
  ∧ ∃ after,
      departments_json
        (snd (delete_department now dept_id
                (snd (update_department now dept_id name hod_email description d))))
        = Some after
      ∧ after !! dept_id = None
      ∧ ∀ other, other ≠ dept_id → after !! other = fst (get_departments now d) !! other.
Proof.
  intros Hdep Hfree.
  assert (Hrun : update_department now dept_id name hod_email description d
                 = (RMsg true "Department updated successfully",
                    save_departments
                      (<[dept_id := {| d_name := name; d_hod_email := hod_email;
                                       d_description := description;
                                       d_created_at := d_created_at dep |}]>
                         (fst (get_departments now d)))
                      (snd (get_departments now d)))).
  { unfold update_department. destruct (get_departments now d) as [departments d0].
    simpl in *. by rewrite Hdep. }
  rewrite Hrun. simpl. split; [done|].
  set (dep' := {| d_name := name; d_hod_email := hod_email;
                  d_description := description; d_created_at := d_created_at dep |}).
  set (d1 := save_departments (<[dept_id := dep']> (fst (get_departments now d)))
               (snd (get_departments now d))).
  assert (Hread : fst (get_departments now d1) !! dept_id = Some dep').
  { unfold d1, get_departments at 1. simpl. apply lookup_insert_eq. }
  split; [by exists dep'|].
  assert (Hfree1 : in_use_by_courses (d_name dep')
                     (courses_json (snd (get_departments now d))) = false).
  { apply in_use_by_courses_false. intros course_id course Hc.
    apply (Hfree course_id course).
    pose proof (get_departments_courses now d) as Hco. unfold get_courses in *.
    by rewrite Hco in Hc. }
  unfold delete_department. unfold get_departments at 1 2. unfold d1 at 1 2. simpl.
  rewrite lookup_insert_eq. rewrite !Hfree1. simpl.
  split; [done|]. eexists. split; [reflexivity|].
  rewrite delete_insert_eq. split; [apply lookup_delete_eq|].
  intros other Hne. by apply lookup_delete_ne.
Qed.

Lemma department_rename_moves_guard_witness :
  fst (delete_department clock1 "CS" cs_disk)
    = RMsg false "Cannot delete department that is in use by courses"
  ∧ fst (delete_department clock1 "CS"
           (snd (update_department clock1 "CS" "Computing" "teacher@x.edu" "" cs_disk)))
    = RMsg true "Department deleted successfully".
Proof.
  split; [reflexivity|].
  apply (department_rename_moves_guard clock1 "CS" "Computing" "teacher@x.edu" ""
           cs_department cs_disk); [reflexivity|].
  intros course_id course Hc. unfold cs_disk, get_courses in Hc. simpl in Hc.
  apply lookup_singleton_Some in Hc as [_ <-]. discriminate.
Defined.

(** ** Certificates *)

(** X18. Certificates are only ever appended, so while the certificates
    of a student are numbered 1, 2, ... [submit_certificate] stores an
    unverified certificate under the next number, and
    [verify_certificate] with that id marks exactly the new certificate
    as verified, with the time of verification, leaving the earlier
    ones as they were; the list stays numbered. *)
Theorem submit_then_verify_certificate (now1 now2 : Clock)
    (student_email title issuing_organization issue_date : string)
    (file_path : option string) (d : Disk) :
  numbered ce_certificate_id (certificate_number student_email)
    (default [] (get_certificates d !! student_email)) →
  ∃ c,
    default [] (get_certificates
                  (snd (submit_certificate now1 student_email title issuing_organization
                          issue_date file_path d)) !! student_email)
      = default [] (get_certificates d !! student_email) ++ [c]
    ∧ ce_title c = title ∧ ce_verified c = false ∧ ce_verified_at c = None
    ∧ ce_certificate_id c
      = certificate_number student_email
          (S (length (default [] (get_certificates d !! student_email))))
    ∧ fst (verify_certificate now2 student_email (ce_certificate_id c)
             (snd (submit_certificate now1 student_email title issuing_organization
                     issue_date file_path d)))
      = RMsg true "Certificate verified successfully"
    ∧ default [] (get_certificates
                    (snd (verify_certificate now2 student_email (ce_certificate_id c)
                            (snd (submit_certificate now1 student_email title
                                    issuing_organization issue_date file_path d))))
                  !! student_email)
      = default [] (get_certificates d !! student_email)
          ++ [verify_certificate_record now2 c]
    ∧ numbered ce_certificate_id (certificate_number student_email)
        (default [] (get_certificates d !! student_email)
           ++ [verify_certificate_record now2 c]).
Proof.
  intros Hn. unfold get_certificates in *.
  set (existing := default [] (certificates_json d !! student_email)) in *.
  set (c := new_certificate now1 (certificate_number student_email (S (length existing)))
              title issuing_organization issue_date file_path).
  assert (Hsubmit : submit_certificate now1 student_email title issuing_organization
                      issue_date file_path d
                    = (RMsg true "Certificate submitted successfully",
                       save_certificates (<[student_email := existing ++ [c]]>
                                            (certificates_json d)) d)) by reflexivity.
  assert (Hnew : numbered ce_certificate_id (certificate_number student_email)
                   (existing ++ [c])) by (by apply numbered_snoc).
  assert (Hlast : (existing ++ [c]) !! length existing = Some c).
  { rewrite lookup_app_r by lia. by rewrite Nat.sub_diag. }
  pose proof (numbered_list_find _ _ (certificate_number_inj student_email) _ _ _
                Hnew Hlast) as Hfind.
  exists c. rewrite Hsubmit. simpl. rewrite lookup_insert_eq. simpl.
  split; [done|]. split; [done|]. split; [done|]. split; [done|]. split; [done|].
  unfold verify_certificate, get_certificates. simpl. rewrite lookup_insert_eq.
  change (certificate_number student_email (S (length existing)))
    with (ce_certificate_id c).
  rewrite Hfind. simpl. split; [done|]. rewrite lookup_insert_eq. simpl.
  assert (Hins : <[length existing := verify_certificate_record now2 c]> (existing ++ [c])
                 = existing ++ [verify_certificate_record now2 c]).
  { replace (length existing) with (length existing + 0) at 1 by lia.
    by rewrite insert_app_r. }
  rewrite Hins. split; [done|]. by apply numbered_snoc.
Qed.

Lemma submit_then_verify_certificate_witness :
  ∃ c, ce_certificate_id c = "student@x.edu_1"
    ∧ default [] (get_certificates
                    (snd (verify_certificate clock1 "student@x.edu" (ce_certificate_id c)
                            (snd (submit_certificate clock0 "student@x.edu" "Python"
                                    "Coursera" "2024-01-05" None cs_disk))))
                  !! "student@x.edu")
      = [verify_certificate_record clock1 c].
Proof.
  destruct (submit_then_verify_certificate clock0 clock1 "student@x.edu" "Python" "Coursera"
              "2024-01-05" None cs_disk) as (c & _ & _ & _ & _ & Hid & _ & Hlist & _).
  { intros i x Hl. vm_compute in Hl. destruct i; discriminate Hl. }
  exists c. split; [exact Hid|exact Hlist].
Defined.

(** ** Announcements: creation and deletion *)

Lemma filtered_is_filter (role department email : option string) (d : Disk) :
  get_filtered_announcements role department email d
  = filter (λ a, visible_to role department email a = true) (get_announcements d).
Proof. unfold get_filtered_announcements. by rewrite filter_announcements_acc. Qed.

(** X19. [create_announcement] always succeeds and appends the
    announcement with the id "length plus one" and the targets as
    given.  For every viewer the filtered list afterwards is the
    filtered list before, followed by the new announcement exactly when
    the viewer is in its audience; an announcement created without any
    target is appended to the list of every viewer. *)
Theorem created_announcement_visibility (now : Clock) (title content author_email : string)
    (target_roles target_departments target_emails : option (list string))
    (role department email : option string) (d : Disk) :
  fst (create_announcement now title content author_email target_roles target_departments
         target_emails d) = RMsg true "Announcement created successfully"
  ∧ ∃ a,
      get_announcements
        (snd (create_announcement now title content author_email target_roles
                target_departments target_emails d))
        = get_announcements d ++ [a]
      ∧ an_announcement_id a = S (length (get_announcements d))
      ∧ an_title a = title ∧ an_target_roles a = target_roles
      ∧ an_target_departments a = target_departments
      ∧ an_target_emails a = target_emails
      ∧ get_filtered_announcements role department email
          (snd (create_announcement now title content author_email target_roles
                  target_departments target_emails d))
        = get_filtered_announcements role department email d
            ++ (if visible_to role department email a then [a] else [])
      ∧ (truthy_list target_roles = false → truthy_list target_departments = false →
         truthy_list target_emails = false →
         get_filtered_announcements role department email
           (snd (create_announcement now title content author_email target_roles
                   target_departments target_emails d))
         = get_filtered_announcements role department email d ++ [a]).
Proof.
  split; [done|]. eexists. split; [reflexivity|]. simpl.
  split; [done|]. split; [done|]. split; [done|]. split; [done|]. split; [done|].
  rewrite !filtered_is_filter. unfold create_announcement, get_announcements. simpl.
  rewrite filter_app, filter_cons, filter_nil.
  match goal with |- context [visible_to role department email ?x] => set (a := x) end.
  assert (Heq : filter (λ a0, visible_to role department email a0 = true)
                  (announcements_json d)
                ++ (if decide (visible_to role department email a = true) then [a] else [])
                = filter (λ a0, visible_to role department email a0 = true)
                    (announcements_json d)
                  ++ (if visible_to role department email a then [a] else [])).
  { destruct (visible_to role department email a); done. }
  split; [exact Heq|]. intros Hr Hd He. rewrite Heq.
  unfold visible_to. simpl. by rewrite Hr, Hd, He.
Qed.

Lemma created_announcement_visibility_witness :
  get_filtered_announcements (Some "student") None None
    (snd (create_announcement clock1 "Exam dates" "See board" "admin@college.edu"
            None None None notice_disk))
  = get_filtered_announcements (Some "student") None None notice_disk
      ++ [{| an_announcement_id := 3; an_title := "Exam dates"; an_content := "See board";
             an_author_email := "admin@college.edu"; an_target_roles := None;
             an_target_departments := None; an_target_emails := None;
             an_created_at := "2024-01-11T10:30:00" |}].
Proof.
  destruct (created_announcement_visibility clock1 "Exam dates" "See board"
              "admin@college.edu" None None None (Some "student") None None notice_disk)
    as (_ & a & Hall & _ & _ & _ & _ & _ & _ & Hevery).
  rewrite (Hevery eq_refl eq_refl eq_refl). f_equal.
  vm_compute in Hall. injection Hall as <-. reflexivity.
Defined.

(** X20. [delete_announcement] fails with "Announcement not found"
    exactly when no stored announcement carries the id.  When the ids
    are distinct and one carries it, the call succeeds, the stored list
    is the old one without that announcement, in the same order, and the
    filtered list of every viewer is the old filtered list without that
    announcement. *)
Theorem delete_announcement_effects (announcement_id : nat)
    (role department email : option string) (d : Disk) :
  ((∀ a, a ∈ get_announcements d → an_announcement_id a ≠ announcement_id) →
     delete_announcement announcement_id d = (RMsg false "Announcement not found", d))
  ∧ ((∃ a, a ∈ get_announcements d ∧ an_announcement_id a = announcement_id) →
     fst (delete_announcement announcement_id d)
       = RMsg true "Announcement deleted successfully"
     ∧ (NoDup (an_announcement_id <$> get_announcements d) →
        get_announcements (snd (delete_announcement announcement_id d))
          = filter (λ a, an_announcement_id a ≠ announcement_id) (get_announcements d)
        ∧ get_filtered_announcements role department email
            (snd (delete_announcement announcement_id d))
          = filter (λ a, an_announcement_id a ≠ announcement_id)
              (get_filtered_announcements role department email d))).
Proof.
  unfold delete_announcement. split.
  - intros Hnone.
    assert (list_find (λ a, an_announcement_id a = announcement_id) (get_announcements d)
            = None) as ->; [|done].
    apply list_find_None, Forall_forall. exact Hnone.
  - intros (a & Hin & Ha).
    destruct (list_find_id_elem_of an_announcement_id announcement_id _ a Hin Ha)
      as (i & y & Hfind & Hy & Hi).
    rewrite Hfind. simpl. split; [done|]. intros Hnd.
    pose proof (delete_found_filter an_announcement_id announcement_id _ i y Hnd Hi Hy)
      as Hdel.
    rewrite !filtered_is_filter. unfold get_announcements in *. simpl. rewrite Hdel.
    split; [done|]. rewrite !list_filter_filter. apply list_filter_iff. tauto.
Qed.

Lemma delete_announcement_effects_witness :
  get_announcements (snd (delete_announcement 1 notice_disk)) = [general_notice]
  ∧ delete_announcement 7 notice_disk = (RMsg false "Announcement not found", notice_disk).
Proof.
  destruct (delete_announcement_effects 1 None None None notice_disk) as [_ Hok].
  destruct (delete_announcement_effects 7 None None None notice_disk) as [Hmiss _].
  split.
  - destruct Hok as [_ Hlists].
    { exists teachers_notice. split; [left|reflexivity]. }
    destruct Hlists as [-> _]; [|reflexivity].
    apply (bool_decide_unpack _). vm_compute. exact I.
  - apply Hmiss. intros a Ha. apply elem_of_cons in Ha as [->|Ha]; [discriminate|].
    apply list_elem_of_singleton in Ha as ->. discriminate.
Defined.

(** ** Page guards *)

(** X21. The guards fail closed.  [role_required] runs the page exactly
    when the session holds a user whose role is one of the allowed
    roles; without a user it stops with the login warning, with a user
    of another role it stops with the permission error.  Whatever
    [role_required] lets through, [login_required] lets through; after
    [logout] both stop with the login warning; and after a login with
    valid credentials [role_required] decides on the role stored for
    the account. *)
Theorem guards_fail_closed {A} (hash_password : string → string) (roles : list string)
    (func : A) (email password : string) (d : Disk) (s : Session) :
  (role_required roles func s = Ran func
   ↔ ∃ user, ss_user s = Some (Some user) ∧ u_role user ∈ roles)
  ∧ (is_authenticated s = false →
     role_required roles func s = StoppedWarning "Please login to access this page."
     ∧ login_required func s = StoppedWarning "Please login to access this page."
     ∧ get_current_user s = None)
  ∧ (∀ user, ss_user s = Some (Some user) → u_role user ∉ roles →
       role_required roles func s
       = StoppedError "You don't have permission to access this page.")
  ∧ (role_required roles func s = Ran func → login_required func s = Ran func)
  ∧ role_required roles func (logout s)
    = StoppedWarning "Please login to access this page."
  ∧ login_required func (logout s) = StoppedWarning "Please login to access this page."
  ∧ ∀ user, email ≠ "" → password ≠ "" →
      authenticate hash_password email password d = Some user →
      get_current_user (login hash_password email password d s) = Some user
      ∧ (role_required roles func (login hash_password email password d s) = Ran func
         ↔ u_role user ∈ roles).
Proof.
  unfold role_required, login_required, get_current_user, is_authenticated.
  split; [|split; [|split; [|split; [|split; [|split]]]]].
  - destruct (ss_user s) as [[user|]|]; simpl.
    + case_bool_decide as Hr.
      * split; [intros _; by exists user|done].
      * split; [done|]. intros (u & [= <-] & Hu). done.
    + split; [done|]. intros (u & ? & _). done.
    + split; [done|]. intros (u & ? & _). done.
  - intros Hna. destruct (ss_user s) as [[user|]|]; simpl in *; [discriminate Hna|done..].
  - intros user -> Hr. by rewrite bool_decide_eq_false_2.
  - destruct (ss_user s) as [[user|]|]; simpl; [|done..].
    by case_bool_decide.
  - done.
  - done.
  - intros user He Hp Hauth. unfold login. rewrite Hauth.
    destruct (String.eqb_spec email ""); [done|].
    destruct (String.eqb_spec password ""); [done|]. simpl.
    split; [done|]. case_bool_decide; split; done.
Qed.

Lemma guards_fail_closed_witness :
  role_required ["admin"] tt admin_session = Ran tt
  ∧ role_required ["teacher"; "student"] tt admin_session
    = StoppedError "You don't have permission to access this page."
  ∧ role_required ["admin"] tt
      (login tagged_digest "admin@college.edu" "admin123" admin_disk no_session) = Ran tt.
Proof.
  destruct (guards_fail_closed tagged_digest ["admin"] tt "admin@college.edu" "admin123"
              admin_disk admin_session) as (Hrun & _ & _ & _ & _ & _ & _).
  destruct (guards_fail_closed tagged_digest ["teacher"; "student"] tt "admin@college.edu"
              "admin123" admin_disk admin_session) as (_ & _ & Hdeny & _).
  destruct (guards_fail_closed tagged_digest ["admin"] tt "admin@college.edu" "admin123"
              admin_disk no_session) as (_ & _ & _ & _ & _ & _ & Hlogin).
  split; [|split].
  - apply Hrun. exists admin_user. split; [reflexivity|left].
  - apply (Hdeny admin_user); [reflexivity|].
    intros Hin. apply elem_of_cons in Hin as [Hin|Hin]; [discriminate|].
    apply list_elem_of_singleton in Hin. discriminate.
  - apply (Hlogin admin_user); [discriminate|discriminate|reflexivity|left].
Defined.

(** ** The document store *)

Lemma data_file_inj (data_dir : string) : Inj (=) (=) (data_file data_dir).
Proof.
  intros n m H. unfold data_file in H. apply String.app_inj in H.
  by apply String.app_inj in H.
Qed.

Lemma default_files_NoDup (data_dir : string) : NoDup (default_files data_dir).*1.
Proof.
  change ((default_files data_dir).*1)
    with (data_file data_dir <$>
            ["courses.json"; "attendance.json"; "assignments.json"; "submissions.json";
             "projects.json"; "certificates.json"; "announcements.json"; "exams.json";
             "subjects.json"; "exam_results.json"]).
  apply (NoDup_fmap_2 _). apply (bool_decide_unpack _). vm_compute. exact I.
Qed.

(** The loop of [init_data_files] adds the missing defaults and nothing
    else. *)
Lemma init_files_union (files : gmap string json) (l : list (string * json)) :
  foldl init_file files l = files ∪ list_to_map l.
Proof.
  revert files. induction l as [|[k v] l IH]; intros files; simpl.
  - symmetry. apply map_union_empty.
  - rewrite IH. unfold init_file. simpl. destruct (files !! k) as [w|] eqn:Hk.
    + apply map_eq. intros p. rewrite !lookup_union.
      destruct (decide (p = k)) as [->|Hne].
      * rewrite Hk, lookup_insert_eq. by destruct (list_to_map l !! k).
      * by rewrite lookup_insert_ne.
    + by rewrite <- insert_union_l, insert_union_r.
Qed.

(** X22. [init_data_files] creates what is missing and never overwrites:
    afterwards each of the ten documents exists, holding what it held
    before or, if it was absent, its default (the empty list for the
    announcements, the empty object for the others); every file that
    existed keeps its content and no other path is created; running it
    again changes nothing; and [load_data] of any of the ten documents
    then reads without writing. *)
Theorem init_data_files_spec (data_dir : string) (files : gmap string json) :
  (∀ path data, (path, data) ∈ default_files data_dir →
     init_data_files data_dir files !! path = Some (default data (files !! path)))
  ∧ (∀ path data, files !! path = Some data →
       init_data_files data_dir files !! path = Some data)
  ∧ (∀ path, path ∉ (default_files data_dir).*1 →
       init_data_files data_dir files !! path = files !! path)
  ∧ init_data_files data_dir (init_data_files data_dir files)
    = init_data_files data_dir files
  ∧ ∀ path data, (path, data) ∈ default_files data_dir →
      load_data data_dir path (init_data_files data_dir files)
      = (default data (files !! path), init_data_files data_dir files).
Proof.
  assert (Hdefault : ∀ path data, (path, data) ∈ default_files data_dir →
            init_data_files data_dir files !! path = Some (default data (files !! path))).
  { intros path data Hin. unfold init_data_files. rewrite init_files_union, lookup_union.
    rewrite (elem_of_list_to_map_1 _ _ _ (default_files_NoDup data_dir) Hin).
    by destruct (files !! path). }
  split; [exact Hdefault|]. split; [|split; [|split]].
  - intros path data Hl. unfold init_data_files.
    rewrite init_files_union, lookup_union, Hl. by destruct (list_to_map _ !! path).
  - intros path Hout. unfold init_data_files. rewrite init_files_union, lookup_union.
    rewrite (not_elem_of_list_to_map_1 _ _ Hout). by destruct (files !! path).
  - unfold init_data_files. rewrite !init_files_union.
    rewrite <- (assoc_L (∪)). by rewrite (idemp_L (∪)).
  - intros path data Hin. unfold load_data. by rewrite (Hdefault path data Hin).
Qed.

Lemma init_data_files_spec_witness :
  init_data_files "data" one_file !! COURSES_FILE "data" = Some some_courses
  ∧ init_data_files "data" one_file !! ANNOUNCEMENTS_FILE "data" = Some (JArr [])
  ∧ init_data_files "data" one_file !! EXAMS_FILE "data" = Some (JObj []).
Proof.
  destruct (init_data_files_spec "data" one_file) as (Hdefault & Hkeep & _).
  split; [|split].
  - apply Hkeep. reflexivity.
  - rewrite (Hdefault (ANNOUNCEMENTS_FILE "data") (JArr [])); [reflexivity|].
    do 6 right. left.
  - rewrite (Hdefault (EXAMS_FILE "data") (JObj [])); [reflexivity|].
    do 7 right. left.
Defined.

(** X23. [load_data] and [save_data] on one path.  A load returns what
    was last saved and does not write; saving back what a load returned
    changes nothing; the first load of a missing path creates the empty
    list for the announcements file and the empty object for any other
    path, and a second load returns the same without writing; neither
    function touches another path. *)
Theorem load_save_round_trip (data_dir file_path : string) (data : json)
    (files : gmap string json) :
  load_data data_dir file_path (save_data file_path data files)
    = (data, save_data file_path data files)
  ∧ save_data file_path (fst (load_data data_dir file_path files))
      (snd (load_data data_dir file_path files))
    = snd (load_data data_dir file_path files)
  ∧ (∀ stored, files !! file_path = Some stored →
       load_data data_dir file_path files = (stored, files))
  ∧ (files !! file_path = None →
     fst (load_data data_dir file_path files)
       = (if decide (file_path = ANNOUNCEMENTS_FILE data_dir) then JArr [] else JObj [])
     ∧ snd (load_data data_dir file_path files) !! file_path
       = Some (fst (load_data data_dir file_path files)))
  ∧ load_data data_dir file_path (snd (load_data data_dir file_path files))
    = load_data data_dir file_path files
  ∧ ∀ other, other ≠ file_path →
      snd (load_data data_dir file_path files) !! other = files !! other
      ∧ save_data file_path data files !! other = files !! other.
Proof.
  unfold load_data, save_data. split; [by rewrite lookup_insert_eq|].
  split; [|split; [|split; [|split]]].
  - destruct (files !! file_path) as [stored|] eqn:E; simpl.
    + by apply insert_id.
    + by rewrite insert_insert_eq.
  - by intros stored ->.
  - intros ->. simpl. split; [|by rewrite lookup_insert_eq].
    destruct (String.eqb_spec file_path (ANNOUNCEMENTS_FILE data_dir));
      [by rewrite decide_True|by rewrite decide_False].
  - destruct (files !! file_path) as [stored|] eqn:E; simpl.
    + by rewrite E.
    + by rewrite lookup_insert_eq.
  - intros other Hne. split; [|by rewrite lookup_insert_ne].
    destruct (files !! file_path); simpl; [done|by rewrite lookup_insert_ne].
Qed.

Lemma load_save_round_trip_witness :
  load_data "data" (COURSES_FILE "data") one_file = (some_courses, one_file)
  ∧ fst (load_data "data" (ANNOUNCEMENTS_FILE "data") one_file) = JArr []
  ∧ fst (load_data "data" "certificates.json" one_file) = JObj [].
Proof.
  destruct (load_save_round_trip "data" (COURSES_FILE "data") JNull one_file)
    as (_ & _ & Hread & _).
  destruct (load_save_round_trip "data" (ANNOUNCEMENTS_FILE "data") JNull one_file)
    as (_ & _ & _ & Hnew & _).
  destruct (load_save_round_trip "data" "certificates.json" JNull one_file)
    as (_ & _ & _ & Hrel & _).
  split; [|split].
  - apply Hread. reflexivity.
  - destruct Hnew as [-> _]; reflexivity.
  - destruct Hrel as [-> _]; reflexivity.
Defined.
